(** * gitcontribs: aggregation and rendering of Git contributions

    A shallow embedding of [calculate_stats] and [generate_ascii_graph] from
    [gitcontribs.py], with the parts of Python's [str], [dict], [sorted] and
    [datetime] that the two functions use, and the properties of the
    aggregation-and-rendering engine proved over that embedding. *)

From Stdlib Require Import ZArith NArith List Ascii String Lia Sorted.
From stdpp Require Import base option list gmap fin_maps.

Local Open Scope Z_scope.

(** ** Python values *)

(** A Python [str] is a sequence of Unicode code points. *)
Abbreviation pystr := (list N).

(** An ASCII literal as a Python string. *)
Definition py (s : string) : pystr := map N_of_ascii (list_ascii_of_string s).

(** The exceptions the modelled code can raise. *)
Inductive exn : Set :=
| IndexError
| ValueError
| OverflowError.

(** The outcome of running a piece of Python: a value, a raised exception,
    or a loop that was not given enough steps to finish. *)
Inductive outcome (A : Type) : Type :=
| Returns (a : A)
| Raises (e : exn)
| OutOfFuel.
Arguments Returns {A} a.
Arguments Raises {A} e.
Arguments OutOfFuel {A}.

(** Sequencing: an exception or a lack of fuel ends the run. *)
#[global] Instance outcome_ret : MRet outcome := fun A a => Returns a.
#[global] Instance outcome_bind : MBind outcome := fun A B k m =>
  match m with
  | Returns a => k a
  | Raises e => Raises e
  | OutOfFuel => OutOfFuel
  end.

(** [l[i]] for a non-negative index: [IndexError] when out of range. *)
Definition getitem {A} (l : list A) (i : nat) : outcome A :=
  match l !! i with
  | Some a => Returns a
  | None => Raises IndexError
  end.

Module Str.

(** [str.isspace] on one code point: the Unicode white space characters. *)
Definition isspace (c : N) : bool :=
  ((9 <=? c) && (c <=? 13) || (28 <=? c) && (c <=? 32)
   || (c =? 133) || (c =? 160) || (c =? 5760)
   || (8192 <=? c) && (c <=? 8202)
   || (c =? 8232) || (c =? 8233) || (c =? 8239) || (c =? 8287)
   || (c =? 12288))%N.

(** [s.split()]: the maximal runs of non-space characters, [cur] being the
    run read so far. *)
Fixpoint split_ws (s cur : pystr) : list pystr :=
  match s with
  | [] => match cur with [] => [] | _ => [cur] end
  | c :: s' =>
      if isspace c
      then match cur with [] => split_ws s' [] | _ => cur :: split_ws s' [] end
      else split_ws s' (cur ++ [c])
  end.

Definition split (s : pystr) : list pystr := split_ws s [].

(** [s.split(sep)] for a one-character separator. *)
Fixpoint split_on (sep : N) (s : pystr) : list pystr :=
  match s with
  | [] => [[]]
  | c :: s' =>
      if (c =? sep)%N then [] :: split_on sep s'
      else match split_on sep s' with
           | w :: ws => (c :: w) :: ws
           | [] => [[c]]
           end
  end.

(** [sep.join(parts)]. *)
Fixpoint join (sep : pystr) (parts : list pystr) : pystr :=
  match parts with
  | [] => []
  | [p] => p
  | p :: ps => p ++ sep ++ join sep ps
  end.

(** [s * n] for [n >= 0] repetitions. *)
Definition repeat_str (s : pystr) (n : nat) : pystr := mjoin (replicate n s).

(** Comparison of two strings, code point by code point. *)
Fixpoint compare (a b : pystr) : comparison :=
  match a, b with
  | [], [] => Eq
  | [], _ :: _ => Lt
  | _ :: _, [] => Gt
  | x :: a', y :: b' =>
      match N.compare x y with
      | Eq => compare a' b'
      | c => c
      end
  end.

(** [a < b] and [a <= b] on strings. *)
Definition ltb (a b : pystr) : bool :=
  match compare a b with Lt => true | _ => false end.
Definition leb (a b : pystr) : bool :=
  match compare a b with Gt => false | _ => true end.

Definition lt (a b : pystr) : Prop := compare a b = Lt.
Definition le (a b : pystr) : Prop := compare a b <> Gt.

End Str.

(** ** Commit records and statistics *)

(** One parsed line of [git log]: the dictionary [get_commits] builds, with
    its five string fields. *)
Record commit : Type := Commit {
  hash : pystr;
  author_name : pystr;
  author_email : pystr;
  date : pystr;
  message : pystr
}.

(** The dictionary [calculate_stats] returns. *)
Record stats : Type := Stats {
  total_commits : Z;
  commits_by_date : gmap pystr Z;
  first_commit : option commit;
  last_commit : option commit
}.

(** [commit["date"].split()[0]]: the date part of the time stamp. *)
Definition date_str_of (c : commit) : outcome pystr :=
  getitem (Str.split (date c)) 0.

(** The body of the loop over the commits: count one commit in its day. *)
Definition count_commit (date_str : pystr) (by_date : gmap pystr Z) : gmap pystr Z :=
  match by_date !! date_str with
  | Some n => <[date_str := n + 1]> by_date
  | None => <[date_str := 1]> by_date
  end.

Fixpoint count_by_date (commits : list commit) (by_date : gmap pystr Z)
  : outcome (gmap pystr Z) :=
  match commits with
  | [] => Returns by_date
  | c :: rest =>
      date_str ← date_str_of c;
      count_by_date rest (count_commit date_str by_date)
  end.

(** [sorted(commits, key=lambda x: x["date"])]: Python's sort is stable, so
    its result is the one of inserting each commit before the first commit
    whose key is not smaller. *)
Fixpoint insert_sorted (x : commit) (l : list commit) : list commit :=
  match l with
  | [] => [x]
  | y :: l' =>
      if Str.ltb (date y) (date x) then y :: insert_sorted x l'
      else x :: y :: l'
  end.

Definition sorted (commits : list commit) : list commit :=
  foldr insert_sorted [] commits.

Definition calculate_stats (commits : list commit) : outcome stats :=
  match commits with
  | [] =>
      Returns {| total_commits := 0; commits_by_date := ∅;
                 first_commit := None; last_commit := None |}
  | _ :: _ =>
      by_date ← count_by_date commits ∅;
      let sorted_commits := sorted commits in
      match sorted_commits with
      | [] =>
          Returns {| total_commits := Z.of_nat (length commits);
                     commits_by_date := by_date;
                     first_commit := None; last_commit := None |}
      | _ :: _ =>
          Returns {| total_commits := Z.of_nat (length commits);
                     commits_by_date := by_date;
                     first_commit := head sorted_commits;
                     last_commit := last sorted_commits |}
      end
  end.

(** [sum(d.values())]. *)
Definition sum_values (d : gmap pystr Z) : Z :=
  map_fold (fun _ v acc => acc + v) 0 d.

(** ** The dates of Python's [datetime] *)

Module Datetime.

(** [date.max.toordinal()]: 9999-12-31. *)
Definition MAXORDINAL : Z := 3652059.

(** Days in 400, 100 and 4 years of the proleptic Gregorian calendar. *)
Definition DI400Y : Z := 146097.
Definition DI100Y : Z := 36524.
Definition DI4Y : Z := 1461.

Definition DAYS_IN_MONTH : list Z :=
  [-1; 31; 28; 31; 30; 31; 30; 31; 31; 30; 31; 30; 31].
Definition DAYS_BEFORE_MONTH : list Z :=
  [-1; 0; 31; 59; 90; 120; 151; 181; 212; 243; 273; 304; 334].

Definition table (t : list Z) (i : Z) : Z := default 0 (t !! Z.to_nat i).

Definition is_leap (year : Z) : bool :=
  (year mod 4 =? 0) && (negb (year mod 100 =? 0) || (year mod 400 =? 0)).

Definition days_before_year (year : Z) : Z :=
  let y := year - 1 in
  y * 365 + y / 4 - y / 100 + y / 400.

Definition days_before_month (year month : Z) : Z :=
  table DAYS_BEFORE_MONTH month
  + (if (2 <? month) && is_leap year then 1 else 0).

(** Year, month and day to the ordinal, 0001-01-01 being day 1. *)
Definition ymd2ord (year month day : Z) : Z :=
  days_before_year year + days_before_month year month + day.

(** The ordinal to year, month and day. *)
Definition ord2ymd (n : Z) : Z * Z * Z :=
  let n := n - 1 in
  let n400 := n / DI400Y in
  let n := n mod DI400Y in
  let year := n400 * 400 + 1 in
  let n100 := n / DI100Y in
  let n := n mod DI100Y in
  let n4 := n / DI4Y in
  let n := n mod DI4Y in
  let n1 := n / 365 in
  let n := n mod 365 in
  let year := year + (n100 * 100 + n4 * 4 + n1) in
  if (n1 =? 4) || (n100 =? 4) then (year - 1, 12, 31)
  else
    let leapyear := (n1 =? 3) && (negb (n4 =? 24) || (n100 =? 3)) in
    let month := Z.shiftr (n + 50) 5 in
    let preceding :=
      table DAYS_BEFORE_MONTH month
      + (if (2 <? month) && leapyear then 1 else 0) in
    if n <? preceding then
      let month := month - 1 in
      let preceding :=
        preceding - (table DAYS_IN_MONTH month
                     + (if (month =? 2) && leapyear then 1 else 0)) in
      (year, month, n - preceding + 1)
    else (year, month, n - preceding + 1).

(** A [date], held as its proleptic Gregorian ordinal: the order of dates
    is the order of their ordinals. *)
Record date : Set := Date { toordinal : Z }.

Definition date_of (year month day : Z) : date := Date (ymd2ord year month day).

Definition year (d : date) : Z := (ord2ymd (toordinal d)).1.1.
Definition month (d : date) : Z := (ord2ymd (toordinal d)).1.2.
Definition day (d : date) : Z := (ord2ymd (toordinal d)).2.

(** [a <= b] on dates. *)
Definition date_le (a b : date) : bool := toordinal a <=? toordinal b.

(** [timedelta(days=n)]: the number of days is limited to nine digits. *)
Definition timedelta (days : Z) : outcome Z :=
  if (-999999999 <=? days) && (days <=? 999999999) then Returns days
  else Raises OverflowError.

(** [d + delta]: the result has to be a date between 0001-01-01 and
    9999-12-31. *)
Definition date_add (d : date) (delta : Z) : outcome date :=
  let o := toordinal d + delta in
  if (0 <? o) && (o <=? MAXORDINAL) then Returns (Date o)
  else Raises OverflowError.

(** [d - delta]. *)
Definition date_sub (d : date) (delta : Z) : outcome date :=
  date_add d (- delta).

(** The decimal digit [k] as a character. *)
Definition digit (k : Z) : N := (48 + Z.to_N k)%N.

(** The last [w] decimal digits of [n], the most significant first: the
    zero-padded number when [n] has at most [w] digits. *)
Fixpoint zero_padded (w : nat) (n : Z) : pystr :=
  match w with
  | O => []
  | S w' => zero_padded w' (n / 10) ++ [digit (n mod 10)]
  end.

(** [d.strftime("%Y-%m-%d")] for the dates from 1000-01-01 on, whose year
    has four digits: the year of an earlier date is printed by the C
    library without leading zeros, and the properties that depend on the
    text of a date are stated from that day on. *)
Definition strftime_ymd (d : date) : pystr :=
  zero_padded 4 (year d) ++ py "-" ++ zero_padded 2 (month d)
  ++ py "-" ++ zero_padded 2 (day d).

(** [datetime.strptime(s, "%m")]: the month a string of one or two digits
    names, matched by [1[0-2]|0[1-9]|[1-9]]; [ValueError] for any other
    string. *)
Definition strptime_m (s : pystr) : outcome Z :=
  match s with
  | [a; b] =>
      if ((a =? 49) && (48 <=? b) && (b <=? 50))%N then Returns (10 + (Z.of_N b - 48))
      else if ((a =? 48) && (49 <=? b) && (b <=? 57))%N then Returns (Z.of_N b - 48)
      else Raises ValueError
  | [a] =>
      if ((49 <=? a) && (a <=? 57))%N then Returns (Z.of_N a - 48)
      else Raises ValueError
  | _ => Raises ValueError
  end.

Definition MONTH_ABBR : list string :=
  ["Jan"; "Feb"; "Mar"; "Apr"; "May"; "Jun";
   "Jul"; "Aug"; "Sep"; "Oct"; "Nov"; "Dec"]%string.

(** [strftime("%b")] of a date in month [m]. *)
Definition strftime_b (m : Z) : pystr :=
  py (default ""%string (MONTH_ABBR !! Z.to_nat (m - 1))).

End Datetime.

(** ** The contribution graph *)

Definition newline : pystr := [10%N].
Definition space : N := 32%N.

(** The four cells of the graph. *)
Definition NO_COMMITS : N := 183%N.
Definition LOW : N := 9642%N.
Definition MEDIUM : N := 9643%N.
Definition HIGH : N := 9608%N.

(** The dates from [current_date] to [end_date], appended to [date_range]:
    the [while] loop, each step of which uses one unit of [fuel]. *)
Fixpoint dates_until (fuel : nat) (current_date end_date : Datetime.date)
    (date_range : list pystr) : outcome (list pystr) :=
  match fuel with
  | O => OutOfFuel
  | S fuel' =>
      if Datetime.date_le current_date end_date then
        let date_range := date_range ++ [Datetime.strftime_ymd current_date] in
        one_day ← Datetime.timedelta 1;
        current_date ← Datetime.date_add current_date one_day;
        dates_until fuel' current_date end_date date_range
      else Returns date_range
  end.

(** The loop over the dates that collects the month labels, each with its
    position. *)
Fixpoint month_labels (date_range : list pystr) (months : list (nat * pystr))
    (current_month : pystr) : outcome (list (nat * pystr)) :=
  match date_range with
  | [] => Returns months
  | date_str :: rest =>
      month ← getitem (Str.split_on 45 date_str) 1;
      if decide (month ≠ current_month) then
        m ← Datetime.strptime_m month;
        let month_name := Datetime.strftime_b m in
        month_labels rest (months ++ [(length months, month_name)]) month
      else month_labels rest months current_month
  end.

(** The header line: each label after [pos * 2] spaces. *)
Definition month_header (months : list (nat * pystr)) : pystr :=
  fold_left
    (fun header '(pos, name) =>
       header ++ Str.repeat_str (py " ") (pos * 2) ++ name)
    months (Str.repeat_str (py " ") 4).

(** The cell of a day with [count] commits. *)
Definition cell (count : Z) : N :=
  if count =? 0 then NO_COMMITS
  else if count <? 5 then LOW
  else if count <? 10 then MEDIUM
  else HIGH.

(** The line of cells: one cell and one space for each date. *)
Definition cells_row (commits_by_date : gmap pystr Z) (date_range : list pystr)
  : pystr :=
  fold_left
    (fun row date_str =>
       let count := default 0 (commits_by_date !! date_str) in
       (row ++ [cell count]) ++ [space])
    date_range (py "    ").

Definition legend : list pystr :=
  [ newline ++ py "Legend:";
    NO_COMMITS :: py " - No commits";
    LOW :: py " - 1-4 commits";
    MEDIUM :: py " - 5-9 commits";
    HIGH :: py " - 10+ commits" ].

(** [generate_ascii_graph], [today] being [datetime.datetime.now().date()]
    and [fuel] the number of steps the [while] loop may take. *)
Definition generate_ascii_graph (fuel : nat) (today : Datetime.date)
    (commits_by_date : gmap pystr Z) (days : Z) : outcome pystr :=
  let end_date := today in
  delta ← Datetime.timedelta (days - 1);
  start_date ← Datetime.date_sub end_date delta;
  date_range ← dates_until fuel start_date end_date [];
  months ← month_labels date_range [] [];
  let graph := [month_header months; cells_row commits_by_date date_range] ++ legend in
  Returns (Str.join newline graph).

(** ** Vocabulary of the properties *)

(** A commit whose time stamp has a date part: it is not blank. *)
Definition has_date (c : commit) : Prop := exists d, date_str_of c = Returns d.

(** The day a commit is counted in, when it has one. *)
Definition date_key (c : commit) : option pystr := Str.split (date c) !! 0%nat.

(** The number of commits of a list that are counted in the day [k]. *)
Definition count_key (k : pystr) (commits : list commit) : Z :=
  Z.of_nat (length (filter (fun c => date_key c = Some k) commits)).

(** The characters of a line that are cells of the graph. *)
Definition is_cell (c : N) : Prop :=
  c = NO_COMMITS \/ c = LOW \/ c = MEDIUM \/ c = HIGH.

#[global] Instance is_cell_dec c : Decision (is_cell c).
Proof. unfold is_cell. apply _. Defined.

(** The column at which the text [label] starts in [line], when it occurs. *)
Fixpoint find_str (label line : pystr) : option nat :=
  match line with
  | [] => if decide (label = []) then Some O else None
  | _ :: line' =>
      if decide (take (length label) line = label) then Some O
      else S <$> find_str label line'
  end.

(** The dates of the window as a list of ordinals starting at [start]. *)
Definition window (start : Z) (days : Z) : list pystr :=
  (fun o => Datetime.strftime_ymd (Datetime.Date o)) <$> seqZ start days.

(** One cell and one space for each date, the cell being the one of the
    number of commits of that date, no entry counting as zero. *)
Definition day_cells (commits_by_date : gmap pystr Z) (date_range : list pystr)
  : pystr :=
  mjoin ((fun date_str => [cell (default 0 (commits_by_date !! date_str)); space])
           <$> date_range).

(** ** The rest of the program *)

(** More of Python's [str], and [os.path.join]. *)
Module StrOps.

(** [s.lstrip()], [s.rstrip()] and [s.strip()]: [s] without the white space
    at its ends. *)
Fixpoint lstrip (s : pystr) : pystr :=
  match s with
  | [] => []
  | c :: s' => if Str.isspace c then lstrip s' else s
  end.

Definition rstrip (s : pystr) : pystr := reverse (lstrip (reverse s)).

Definition strip (s : pystr) : pystr := rstrip (lstrip s).

(** [s.startswith(c)] and [s.endswith(c)] for one character. *)
Definition startswith (c : N) (s : pystr) : bool :=
  match s with
  | x :: _ => (x =? c)%N
  | [] => false
  end.

Definition endswith (c : N) (s : pystr) : bool :=
  match last s with
  | Some x => (x =? c)%N
  | None => false
  end.

(** [os.path.join(a, b)] of [posixpath]: an absolute [b] replaces [a], and
    the separator is added unless [a] is empty or ends with one. *)
Definition path_join (a b : pystr) : pystr :=
  if startswith 47 b then b
  else if bool_decide (a = []) || endswith 47 a then a ++ b
  else a ++ [47%N] ++ b.

End StrOps.

(** The tree of directories that [os.walk] goes through. *)
Module Fs.

(** What a name in a directory stands for: a file (or a link to one), a
    link to a directory, or a directory with its entries in the order in
    which they are listed. *)
#[warnings="-register-all"]
Inductive node : Type :=
| File
| DirLink
| Dir (entries : list (pystr * node)).

(** [entry.is_dir()]: links to directories count as directories. *)
Definition is_dir (n : node) : bool :=
  match n with
  | File => false
  | DirLink | Dir _ => true
  end.

Definition GIT : pystr := py ".git".

(** The entries of a directory that [os.walk] gives as [dirnames]. *)
Definition dirs (entries : list (pystr * node)) : list (pystr * node) :=
  filter (fun e => is_dir e.2 = true) entries.

Definition dirnames (entries : list (pystr * node)) : list pystr :=
  (dirs entries).*1.

(** [dirnames.remove('.git')]: without the first entry of that name. *)
Fixpoint remove_git (es : list (pystr * node)) : list (pystr * node) :=
  match es with
  | [] => []
  | (name, child) :: es' =>
      if decide (name = GIT) then es' else (name, child) :: remove_git es'
  end.

(** The loop over [os.walk]: a directory with a directory [.git] is added
    to the result, and the walk goes on, top down, in the directories left
    in [dirnames] that are not links. [removed] tells that the first [.git]
    has been taken out of the names already. *)
Fixpoint walk (dirpath : pystr) (n : node) {struct n} : list pystr :=
  match n with
  | Dir entries =>
      (if bool_decide (GIT ∈ dirnames entries) then [dirpath] else [])
      ++ (fix descend (es : list (pystr * node)) (removed : bool) : list pystr :=
            match es with
            | [] => []
            | (name, child) :: es' =>
                if is_dir child then
                  if negb removed && bool_decide (name = GIT)
                  then descend es' true
                  else walk (StrOps.path_join dirpath name) child
                       ++ descend es' removed
                else descend es' removed
            end) entries false
  | File | DirLink => []
  end.

(** [find_git_repositories(root_dir)], [listing] being the entries of the
    directory [root_dir], or [None] when it is not a directory that can be
    listed: [os.walk] then yields nothing. *)
Definition find_git_repositories (root_dir : pystr)
    (listing : option (list (pystr * node))) : list pystr :=
  match listing with
  | Some entries => walk root_dir (Dir entries)
  | None => []
  end.

(** The directories the walk visits: the root, and the directories in a
    visited directory that are not named [.git]. *)
Inductive visited (root : pystr) (top : list (pystr * node))
  : pystr -> list (pystr * node) -> Prop :=
| visited_root : visited root top root top
| visited_child dirpath entries name entries' :
    visited root top dirpath entries ->
    (name, Dir entries') ∈ entries -> name <> GIT ->
    visited root top (StrOps.path_join dirpath name) entries'.

(** No two entries of a directory have the same name, in the whole tree. *)
Fixpoint unique_names (n : node) : Prop :=
  match n with
  | Dir entries =>
      NoDup entries.*1
      /\ (fix all (es : list (pystr * node)) : Prop :=
            match es with
            | [] => True
            | (_, child) :: es' => unique_names child /\ all es'
            end) entries
  | File | DirLink => True
  end.

End Fs.

(** Runs of [git] and the commits read from them. *)
Module Proc.

(** What [subprocess.check_output] does: it returns the output, raises
    [CalledProcessError] when the command fails, or raises something else
    (the command cannot be started, the output cannot be decoded). *)
Inductive process_result : Type :=
| Stdout (output : pystr)
| CalledProcessError (msg : pystr)
| OtherError.

(** The exceptions that the functions here do not catch. *)
Inductive uncaught : Set :=
| DateOverflow
| OtherException.

Inductive run (A : Type) : Type :=
| Done (a : A)
| Propagates (e : uncaught).
Arguments Done {A} a.
Arguments Propagates {A} e.

Definition UNKNOWN : pystr := py "Unknown".

(** [get_git_user], [check_output] being what a run of a command gives. *)
Definition get_git_user (check_output : list pystr -> process_result)
  : run (pystr * pystr) :=
  match check_output [py "git"; py "config"; py "user.name"] with
  | Stdout out =>
      let name := StrOps.strip out in
      match check_output [py "git"; py "config"; py "user.email"] with
      | Stdout out' =>
          let email := StrOps.strip out' in
          Done (name, email)
      | CalledProcessError _ => Done (UNKNOWN, UNKNOWN)
      | OtherError => Propagates OtherException
      end
  | CalledProcessError _ => Done (UNKNOWN, UNKNOWN)
  | OtherError => Propagates OtherException
  end.

(** The current directory of the process and the lines it has printed. *)
Record world : Type := World {
  cwd : pystr;
  printed : list pystr
}.

Definition print (line : pystr) (w : world) : world :=
  {| cwd := cwd w; printed := printed w ++ [line] |}.

Definition set_cwd (dir : pystr) (w : world) : world :=
  {| cwd := dir; printed := printed w |}.

Definition quoted (s : string) : pystr := [34%N] ++ py s ++ [34%N].

Definition field (key value : string) : pystr :=
  quoted key ++ py ":" ++ quoted value.

(** The format given to [git log]: one JSON object for each commit. *)
Definition PRETTY : pystr :=
  py "--pretty=format:{" ++ field "hash" "%H" ++ py ","
  ++ field "author_name" "%an" ++ py ","
  ++ field "author_email" "%ae" ++ py ","
  ++ field "date" "%ad" ++ py ","
  ++ field "message" "%s" ++ py "}".

(** [since_date]: the day [days] days before now, as text. *)
Definition since_date (now : Datetime.date) (days : Z) : outcome pystr :=
  delta ← Datetime.timedelta days;
  since ← Datetime.date_sub now delta;
  Returns (Datetime.strftime_ymd since).

Definition git_log_cmd (since_date author_email : pystr) : list pystr :=
  [ py "git"; py "log";
    py "--since=" ++ since_date;
    py "--author=" ++ author_email;
    PRETTY;
    py "--date=iso" ].

Section GetCommits.

(** The values [json.loads] gives. *)
Context {J : Type}.

(** [json.loads]: the value, or the message of the [JSONDecodeError]. *)
Variable json_loads : pystr -> pystr + J.

(** A run of a command in a directory. *)
Variable check_output : pystr -> list pystr -> process_result.

(** [os.chdir(path)] from a directory: the directory the process is in
    afterwards, or [None] when the call fails. *)
Variable chdir : pystr -> pystr -> option pystr.

(** The loop over the lines of the output: empty lines are left out, and the
    first line that is not JSON ends the loop with its error. *)
Fixpoint parse_lines (lines : list pystr) (commits : list J) : pystr + list J :=
  match lines with
  | [] => inr commits
  | line :: rest =>
      match line with
      | [] => parse_lines rest commits
      | _ :: _ =>
          match json_loads line with
          | inr commit => parse_lines rest (commits ++ [commit])
          | inl msg => inl msg
          end
      end
  end.

Definition parse_output (output : pystr) : pystr + list J :=
  match output with
  | [] => inr []
  | _ :: _ => parse_lines (Str.split_on 10 (StrOps.strip output)) []
  end.

(** The [except] branch: the error is printed, the process goes back to
    the directory it was in, and the repository counts for no commit. *)
Definition on_error (repo_path msg original_dir : pystr) (w : world)
  : run (list J) * world :=
  let w := print (py "Error getting commits for " ++ repo_path ++ py ": " ++ msg) w in
  match chdir (cwd w) original_dir with
  | Some dir => (Done [], set_cwd dir w)
  | None => (Propagates OtherException, w)
  end.

(** [get_commits], [now] being [datetime.datetime.now()]. *)
Definition get_commits (now : Datetime.date) (repo_path : pystr) (days : Z)
    (author_email : pystr) (w : world) : run (list J) * world :=
  match since_date now days with
  | Returns since_date =>
      let original_dir := cwd w in
      match chdir (cwd w) repo_path with
      | None => (Propagates OtherException, w)
      | Some repo_dir =>
          let w := set_cwd repo_dir w in
          match check_output (cwd w) (git_log_cmd since_date author_email) with
          | Stdout output =>
              match chdir (cwd w) original_dir with
              | None => (Propagates OtherException, w)
              | Some dir =>
                  let w := set_cwd dir w in
                  match parse_output output with
                  | inr commits => (Done commits, w)
                  | inl msg => on_error repo_path msg original_dir w
                  end
              end
          | CalledProcessError msg => on_error repo_path msg original_dir w
          | OtherError => (Propagates OtherException, w)
          end
      end
  | _ => (Propagates DateOverflow, w)
  end.

End GetCommits.

End Proc.

(** The end of [main]: the statistics of the commits of all repositories,
    and the graph that is printed when there is a commit, [None] standing
    for no graph. *)
Definition report_graph (fuel : nat) (today : Datetime.date)
    (all_commits : list commit) (days : Z) : outcome (option pystr) :=
  stats ← calculate_stats all_commits;
  if 0 <? total_commits stats then
    graph ← generate_ascii_graph fuel today (commits_by_date stats) days;
    Returns (Some graph)
  else Returns None.

(** The months of a list of dates, each run of dates of one month counted
    once. *)
Fixpoint month_runs (months : list Z) (current : option Z) : list Z :=
  match months with
  | [] => []
  | m :: rest =>
      if decide (current = Some m) then month_runs rest current
      else m :: month_runs rest (Some m)
  end.

(** The text kept as [current_month] and the month it stands for. *)
Definition month_text (current_month : pystr) (current : option Z) : Prop :=
  match current with
  | None => current_month = []
  | Some m => 1 <= m <= 12 /\ current_month = Datetime.zero_padded 2 m
  end.

(** [s] is [out] without the white space at its ends. *)
Definition stripped_of (out s : pystr) : Prop :=
  (exists l r, out = l ++ s ++ r /\ Forall (fun ch => Str.isspace ch = true) l
               /\ Forall (fun ch => Str.isspace ch = true) r)
  /\ (forall ch, head s = Some ch -> Str.isspace ch = false)
  /\ (forall ch, last s = Some ch -> Str.isspace ch = false).

(** The lines of the output of [git log] that are read. *)
Definition output_lines (output : pystr) : list pystr :=
  match output with
  | [] => []
  | _ :: _ => Str.split_on 10 (StrOps.strip output)
  end.

(** A time stamp that is blank: [split()] finds no part in it. *)
Definition blank (s : pystr) : Prop := Forall (fun ch => Str.isspace ch = true) s.

#[global] Instance blank_dec s : Decision (blank s).
Proof. unfold blank. apply _. Defined.

(** ** Sample inputs *)

Definition sample_commit (h d : string) : commit :=
  {| hash := py h; author_name := py "Ada"; author_email := py "ada@example.org";
     date := py d; message := py "update" |}.

(** Four commits of two days: one of them twice, as when it is found in two
    clones, and two with the same time stamp. *)
Definition sample_log : list commit :=
  [ sample_commit "c3" "2024-01-02 09:30:00 +0000";
    sample_commit "a1" "2024-01-01 12:00:00 +0000";
    sample_commit "b2" "2024-01-01 12:00:00 +0000";
    sample_commit "c3" "2024-01-02 09:30:00 +0000" ].

(** The counts of three days, and the day the graph is drawn. *)
Definition sample_counts : gmap pystr Z :=
  list_to_map [ (py "2024-01-01", 3); (py "2024-01-02", 6); (py "2024-01-05", 12) ].

Definition sample_today : Datetime.date := Datetime.date_of 2024 1 5.

(** A day in February, three days after the end of January. *)
Definition february_today : Datetime.date := Datetime.date_of 2024 2 2.

(** The counts of the sample with an entry of a day long before. *)
Definition sample_counts_stale : gmap pystr Z :=
  <[py "1999-12-31" := 40]> sample_counts.

(** The last date there is. *)
Definition last_day : Datetime.date := Datetime.Date Datetime.MAXORDINAL.

(** The five days from 2024-01-29 to 2024-02-02. *)
Definition boundary_days : list Datetime.date :=
  Datetime.Date <$> seqZ (Datetime.ymd2ord 2024 1 29) 5.

(** A directory with a repository [proj], in which [vendor] has a file
    [.git], [lib] a link [.git] to a directory, and the directory [.git] a
    repository of its own. *)
Definition sample_tree : list (pystr * Fs.node) :=
  [ (py "proj",
     Fs.Dir [ (py ".git", Fs.Dir [ (py "modules", Fs.Dir [ (py ".git", Fs.Dir []) ]) ]);
              (py "src", Fs.Dir []);
              (py "vendor", Fs.Dir [ (py ".git", Fs.File) ]);
              (py "lib", Fs.Dir [ (py ".git", Fs.DirLink) ]) ]);
    (py "notes.txt", Fs.File) ].

(** A world for [get_commits]: lines that start with a brace are read as
    JSON, directories are entered by their absolute names, and [git log]
    prints two commits, or two commits and a line that is not JSON. *)
Definition sample_json_loads (line : pystr) : pystr + pystr :=
  if StrOps.startswith 123 line then inr line else inl (py "Expecting value").

Definition sample_chdir (from path : pystr) : option pystr := Some path.

Definition sample_output : pystr :=
  py "{a}" ++ newline ++ newline ++ py "{b}" ++ newline.

Definition sample_output_bad : pystr :=
  py "{a}" ++ newline ++ py "oops" ++ newline ++ py "{b}" ++ newline.

Definition sample_git_log (dir : pystr) (cmd : list pystr) : Proc.process_result :=
  Proc.Stdout sample_output.

Definition sample_git_log_bad (dir : pystr) (cmd : list pystr)
  : Proc.process_result :=
  Proc.Stdout sample_output_bad.

Definition sample_world : Proc.world :=
  {| Proc.cwd := py "/home/ada"; Proc.printed := [] |}.

(** The sample world after the error of a line that is not JSON. *)
Definition sample_world_error : Proc.world :=
  {| Proc.cwd := py "/home/ada";
     Proc.printed := [py "Error getting commits for ./proj: Expecting value"] |}.

(** [git config]: a name with a line end after it, and no e-mail set. *)
Definition sample_git_config (cmd : list pystr) : Proc.process_result :=
  if decide (cmd = [py "git"; py "config"; py "user.name"])
  then Proc.Stdout (py "Ada Lovelace" ++ newline)
  else Proc.CalledProcessError (py "exit status 1").

Definition sample_git_config_set (cmd : list pystr) : Proc.process_result :=
  if decide (cmd = [py "git"; py "config"; py "user.name"])
  then Proc.Stdout (py "Ada Lovelace" ++ newline)
  else Proc.Stdout (py "ada@example.org" ++ newline).

(** ** Counting the commits of each day *)

Section Counting.

Implicit Types (m : gmap pystr Z) (k : pystr) (c : commit).

Lemma date_str_of_key c d : date_str_of c = Returns d <-> date_key c = Some d.
Proof.
  unfold date_str_of, getitem, date_key.
  destruct (Str.split (date c) !! 0%nat); split; congruence.
Qed.

Lemma has_date_key c : has_date c <-> is_Some (date_key c).
Proof.
  unfold has_date, is_Some.
  split; intros [d H]; exists d; by apply date_str_of_key.
Qed.

Lemma sum_values_empty : sum_values ∅ = 0.
Proof. unfold sum_values. by rewrite map_fold_empty. Qed.

Lemma sum_values_insert_fresh k v m :
  m !! k = None -> sum_values (<[k := v]> m) = sum_values m + v.
Proof.
  intros Hk. unfold sum_values.
  rewrite map_fold_insert_L; [done | intros; lia | done].
Qed.

Lemma sum_values_lookup k v m :
  m !! k = Some v -> sum_values m = sum_values (delete k m) + v.
Proof.
  intros Hk. unfold sum_values.
  rewrite (map_fold_delete_L _ _ k v m); [done | intros; lia | done].
Qed.

Lemma sum_values_count_commit k m :
  sum_values (count_commit k m) = sum_values m + 1.
Proof.
  unfold count_commit. destruct (m !! k) as [n|] eqn:Hk.
  - rewrite <- insert_delete_eq.
    rewrite sum_values_insert_fresh by apply lookup_delete_eq.
    rewrite (sum_values_lookup k n m Hk). lia.
  - by apply sum_values_insert_fresh.
Qed.

Lemma lookup_count_commit k k' m :
  count_commit k m !! k' =
    if decide (k = k') then Some (default 0 (m !! k) + 1) else m !! k'.
Proof.
  unfold count_commit.
  destruct (m !! k) as [n|] eqn:Hk; rewrite lookup_insert;
    case_decide; simpl; done.
Qed.

Lemma count_key_nil k : count_key k [] = 0.
Proof. done. Qed.

Lemma count_key_cons k c cs :
  count_key k (c :: cs) =
    (if decide (date_key c = Some k) then 1 else 0) + count_key k cs.
Proof.
  unfold count_key. rewrite filter_cons.
  case_decide; simpl length; lia.
Qed.

Lemma count_key_nonneg k cs : 0 <= count_key k cs.
Proof. unfold count_key. lia. Qed.

(** The loop returns when every commit has a date, and adds to each day
    the number of commits counted in it. *)
Lemma count_by_date_spec cs : forall m,
  Forall has_date cs ->
  exists m',
    count_by_date cs m = Returns m'
    /\ (forall k, m' !! k =
          if decide (count_key k cs = 0) then m !! k
          else Some (default 0 (m !! k) + count_key k cs))
    /\ sum_values m' = sum_values m + Z.of_nat (length cs).
Proof.
  induction cs as [|c cs IH]; intros m Hcs.
  - exists m. split; [done|]. split.
    + intros k. rewrite count_key_nil. by case_decide.
    + simpl. lia.
  - apply Forall_cons in Hcs as [[d Hd] Hcs].
    destruct (IH (count_commit d m) Hcs) as (m' & Hrun & Hlook & Hsum).
    exists m'. split; [|split].
    + simpl. rewrite Hd. exact Hrun.
    + intros k. rewrite Hlook, count_key_cons, lookup_count_commit.
      apply date_str_of_key in Hd. rewrite Hd.
      pose proof (count_key_nonneg k cs).
      repeat case_decide; simplify_eq; try lia; try done;
        simpl; f_equal; lia.
    + rewrite Hsum, sum_values_count_commit. simpl length. lia.
Qed.

Lemma count_key_perm k cs cs' : cs ≡ₚ cs' -> count_key k cs = count_key k cs'.
Proof. intros Hp. unfold count_key. by rewrite Hp. Qed.

End Counting.

(** ** The order of strings *)

Module StrOrder.

Lemma compare_refl a : Str.compare a a = Eq.
Proof. induction a as [|x a IH]; simpl; [done|]. by rewrite N.compare_refl. Qed.

Lemma compare_eq a : forall b, Str.compare a b = Eq -> a = b.
Proof.
  induction a as [|x a IH]; intros [|y b]; simpl; try done.
  destruct (N.compare_spec x y) as [Hxy|Hxy|Hxy]; try done.
  intros Hab. subst. f_equal. by apply IH.
Qed.

Lemma compare_antisym a : forall b, Str.compare b a = CompOpp (Str.compare a b).
Proof.
  induction a as [|x a IH]; intros [|y b]; simpl; try done.
  rewrite (N.compare_antisym x y).
  destruct (N.compare x y); simpl; auto.
Qed.

Lemma lt_le_trans a : forall b c, Str.lt a b -> Str.le b c -> Str.lt a c.
Proof.
  unfold Str.lt, Str.le.
  induction a as [|x a IH]; intros [|y b] [|z c]; simpl; try done.
  destruct (N.compare_spec x y), (N.compare_spec y z), (N.compare_spec x z);
    subst; try lia; try done; eauto.
Qed.

Lemma le_lt_trans a : forall b c, Str.le a b -> Str.lt b c -> Str.lt a c.
Proof.
  unfold Str.lt, Str.le.
  induction a as [|x a IH]; intros [|y b] [|z c]; simpl; try done.
  destruct (N.compare_spec x y), (N.compare_spec y z), (N.compare_spec x z);
    subst; try lia; try done; eauto.
Qed.

Lemma le_refl a : Str.le a a.
Proof. unfold Str.le. by rewrite compare_refl. Qed.

Lemma lt_le a b : Str.lt a b -> Str.le a b.
Proof. unfold Str.lt, Str.le. congruence. Qed.

Lemma le_trans a b c : Str.le a b -> Str.le b c -> Str.le a c.
Proof.
  intros Hab Hbc. unfold Str.le in Hab.
  destruct (Str.compare a b) eqn:E; [| |done].
  - apply compare_eq in E. by subst.
  - apply lt_le. by apply (lt_le_trans a b c).
Qed.

Lemma lt_irrefl a : ~ Str.lt a a.
Proof. unfold Str.lt. by rewrite compare_refl. Qed.

Lemma le_antisym a b : Str.le a b -> Str.le b a -> a = b.
Proof.
  unfold Str.le. rewrite (compare_antisym a b).
  destruct (Str.compare a b) eqn:E; simpl; try done.
  intros _ _. by apply compare_eq.
Qed.

Lemma ltb_true a b : Str.ltb a b = true <-> Str.lt a b.
Proof. unfold Str.ltb, Str.lt. destruct (Str.compare a b); split; done. Qed.

(** [not (a < b)] is [b <= a]: the order is total. *)
Lemma ltb_false a b : Str.ltb a b = false <-> Str.le b a.
Proof.
  unfold Str.ltb, Str.le. rewrite (compare_antisym a b).
  destruct (Str.compare a b); simpl; split; done.
Qed.

End StrOrder.

(** ** The first and the last commit of the sorted list *)

Section Sorted.

Import StrOrder.

Lemma head_insert_sorted x s :
  head (insert_sorted x s) =
    Some (match head s with
          | Some y => if Str.ltb (date y) (date x) then y else x
          | None => x
          end).
Proof. destruct s as [|y s]; simpl; [done|]. by destruct (Str.ltb _ _). Qed.

Lemma insert_sorted_not_nil x s : insert_sorted x s <> [].
Proof. destruct s as [|y s]; simpl; [done|]. by destruct (Str.ltb _ _). Qed.

Lemma last_cons_not_nil {A} (y : A) s : s <> [] -> last (y :: s) = last s.
Proof. by destruct s. Qed.

(** Inserting into a list whose last element is a greatest one. *)
Lemma last_insert_sorted x s : forall z,
  last s = Some z ->
  (forall y, y ∈ s -> Str.le (date y) (date z)) ->
  last (insert_sorted x s) = Some (if Str.ltb (date z) (date x) then x else z).
Proof.
  induction s as [|y s IH]; intros z Hlast Hmax; [done|].
  destruct s as [|y' s].
  - simpl in Hlast. simplify_eq. simpl. by destruct (Str.ltb _ _).
  - rewrite last_cons_not_nil in Hlast by done.
    change (insert_sorted x (y :: y' :: s))
      with (if Str.ltb (date y) (date x) then y :: insert_sorted x (y' :: s)
            else x :: y :: y' :: s).
    destruct (Str.ltb (date y) (date x)) eqn:Hyx.
    + rewrite last_cons_not_nil by apply insert_sorted_not_nil.
      apply IH; [done|]. intros w Hw. apply Hmax. by right.
    + rewrite !last_cons_not_nil by done.
      assert (Str.ltb (date z) (date x) = false) as ->; [|done].
      apply ltb_false. apply ltb_false in Hyx.
      eapply le_trans; [exact Hyx|]. apply Hmax. by left.
Qed.

(** The head of the sorted list is the earliest of the commits with the
    least date. *)
Lemma head_sorted cs :
  cs <> [] ->
  exists i c,
    cs !! i = Some c /\ head (sorted cs) = Some c
    /\ (forall c', c' ∈ cs -> Str.le (date c) (date c'))
    /\ (forall j c', (j < i)%nat -> cs !! j = Some c' -> Str.lt (date c) (date c')).
Proof.
  induction cs as [|x l IH]; [done|]. intros _.
  change (sorted (x :: l)) with (insert_sorted x (sorted l)).
  rewrite head_insert_sorted.
  destruct l as [|x' l].
  - exists 0%nat, x. simpl. repeat split; [|lia].
    intros c' ->%list_elem_of_singleton. apply le_refl.
  - destruct IH as (i & y & Hi & Hhead & Hmin & Hfirst); [done|].
    rewrite Hhead. destruct (Str.ltb (date y) (date x)) eqn:Hyx.
    + apply ltb_true in Hyx. exists (S i), y. repeat split; [done| |].
      * intros c' [->|Hc']%elem_of_cons; [by apply lt_le | by apply Hmin].
      * intros [|j] c' Hj Hc'; simpl in Hc'; [by simplify_eq|].
        apply (Hfirst j); [lia | done].
    + apply ltb_false in Hyx. exists 0%nat, x. repeat split; [|lia].
      intros c' [->|Hc']%elem_of_cons; [apply le_refl|].
      eapply le_trans; [exact Hyx | by apply Hmin].
Qed.

(** The last element of the sorted list is the latest of the commits with
    the greatest date. *)
Lemma last_sorted cs :
  cs <> [] ->
  exists i c,
    cs !! i = Some c /\ last (sorted cs) = Some c
    /\ (forall c', c' ∈ sorted cs -> Str.le (date c') (date c))
    /\ (forall c', c' ∈ cs -> Str.le (date c') (date c))
    /\ (forall j c', (i < j)%nat -> cs !! j = Some c' -> Str.lt (date c') (date c)).
Proof.
  induction cs as [|x l IH]; [done|]. intros _.
  change (sorted (x :: l)) with (insert_sorted x (sorted l)).
  destruct l as [|x' l].
  - exists 0%nat, x. simpl. repeat split.
    + intros c' ->%list_elem_of_singleton. apply le_refl.
    + intros c' ->%list_elem_of_singleton. apply le_refl.
    + intros [|[|j]] c' Hj Hc'; simpl in Hc'; by try lia.
  - destruct IH as (i & z & Hi & Hlast & Hmaxs & Hmax & Hlater); [done|].
    rewrite (last_insert_sorted x _ z Hlast Hmaxs).
    assert (forall c', c' ∈ insert_sorted x (sorted (x' :: l)) ->
                       c' = x \/ c' ∈ sorted (x' :: l)) as Hins.
    { generalize (sorted (x' :: l)). intros s. induction s as [|y s IHs]; simpl.
      - intros c' ->%list_elem_of_singleton. by left.
      - destruct (Str.ltb (date y) (date x)).
        + intros c' [->|Hc']%elem_of_cons; [right; by left|].
          destruct (IHs c' Hc'); [by left | right; by right].
        + intros c' [->|Hc']%elem_of_cons; [by left | by right]. }
    destruct (Str.ltb (date z) (date x)) eqn:Hzx.
    + apply ltb_true in Hzx. exists 0%nat, x. repeat split.
      * intros c' [->|Hc']%Hins; [apply le_refl|].
        apply lt_le. eapply le_lt_trans; [by apply Hmaxs | done].
      * intros c' [->|Hc']%elem_of_cons; [apply le_refl|].
        apply lt_le. eapply le_lt_trans; [by apply Hmax | done].
      * intros [|j] c' Hj Hc'; [lia|]. simpl in Hc'.
        eapply le_lt_trans; [|exact Hzx]. apply Hmax.
        by eapply list_elem_of_lookup_2.
    + apply ltb_false in Hzx. exists (S i), z. repeat split; [done| | |].
      * intros c' [->|Hc']%Hins; [done | by apply Hmaxs].
      * intros c' [->|Hc']%elem_of_cons; [done | by apply Hmax].
      * intros [|j] c' Hj Hc'; [lia|]. simpl in Hc'.
        apply (Hlater j); [lia | done].
Qed.

End Sorted.

(** ** Properties of [calculate_stats] *)

Section Statistics.

Import StrOrder.

(** For a list with commits, all of them dated, the function returns the
    record built from the length, the counts and the sorted list. *)
Lemma calculate_stats_returns cs :
  cs <> [] -> Forall has_date cs ->
  exists m,
    count_by_date cs ∅ = Returns m
    /\ calculate_stats cs =
         Returns {| total_commits := Z.of_nat (length cs);
                    commits_by_date := m;
                    first_commit := head (sorted cs);
                    last_commit := last (sorted cs) |}.
Proof.
  intros Hne Hcs.
  destruct (count_by_date_spec cs ∅ Hcs) as (m & Hrun & _).
  exists m. split; [done|].
  destruct cs as [|c cs]; [done|].
  unfold calculate_stats. rewrite Hrun.
  change (Returns m ≫= ?k) with (k m). cbv beta zeta.
  by destruct (sorted (c :: cs)).
Qed.

Lemma sample_log_dated : Forall has_date sample_log.
Proof. repeat constructor; eexists; reflexivity. Qed.

(** What is before the first white space of a time stamp that starts with
    a character that is not white space is the day the commit is counted
    in. *)
Lemma split_ws_run d : forall cur w rest,
  Forall (fun ch => Str.isspace ch = false) d ->
  Str.isspace w = true -> cur ++ d <> [] ->
  Str.split_ws (d ++ w :: rest) cur !! 0%nat = Some (cur ++ d).
Proof.
  induction d as [|ch d IH]; intros cur w rest Hd Hw Hne.
  - rewrite app_nil_r in *. simpl. rewrite Hw. by destruct cur.
  - apply Forall_cons in Hd as [Hch Hd]. simpl. rewrite Hch.
    rewrite (IH (cur ++ [ch]) w rest Hd Hw); rewrite <- app_assoc; done.
Qed.

Lemma date_key_truncates c d w rest :
  date c = d ++ w :: rest -> d <> [] ->
  Forall (fun ch => Str.isspace ch = false) d -> Str.isspace w = true ->
  date_key c = Some d.
Proof.
  intros Hc Hne Hd Hw. unfold date_key, Str.split. rewrite Hc.
  by rewrite (split_ws_run d [] w rest).
Qed.

(** What [calculate_stats] returns for dated commits: the length and the
    number of commits of each day. *)
Lemma calculate_stats_counts cs :
  Forall has_date cs ->
  exists s, calculate_stats cs = Returns s
    /\ total_commits s = Z.of_nat (length cs)
    /\ sum_values (commits_by_date s) = Z.of_nat (length cs)
    /\ (forall k, commits_by_date s !! k =
          if decide (count_key k cs = 0) then None else Some (count_key k cs)).
Proof.
  intros Hcs. destruct cs as [|c cs].
  - eexists. split; [reflexivity|]. cbn [commits_by_date total_commits].
    split; [done|]. split; [apply sum_values_empty|].
    intros k. rewrite count_key_nil, lookup_empty. by case_decide.
  - destruct (calculate_stats_returns (c :: cs)) as (m & Hm & ->); [done..|].
    destruct (count_by_date_spec (c :: cs) ∅ Hcs) as (m' & Hrun & Hlook & Hsum).
    rewrite Hm in Hrun. simplify_eq.
    eexists. split; [reflexivity|]. cbn [commits_by_date total_commits].
    split; [done|]. split.
    + rewrite Hsum, sum_values_empty. lia.
    + intros k. rewrite Hlook, lookup_empty. by case_decide.
Qed.

End Statistics.

(** C2: for every sequence of commit records, duplicates included,
    [calculate_stats] returns a [total_commits] equal to the length of the
    sequence. The records are those of the data model: each has a time stamp
    with a date part. *)
Theorem C2_total_commits_is_length (cs : list commit) :
  Forall has_date cs ->
  exists s, calculate_stats cs = Returns s
            /\ total_commits s = Z.of_nat (length cs).
Proof.
  intros Hcs.
  destruct (calculate_stats_counts cs Hcs) as (s & Hs & Hlen & _).
  by exists s.
Qed.

Lemma C2_witness :
  Forall has_date sample_log
  /\ exists s, calculate_stats sample_log = Returns s
               /\ total_commits s = Z.of_nat (length sample_log).
Proof.
  split; [|apply (C2_total_commits_is_length sample_log)];
    repeat constructor; eexists; reflexivity.
Defined.

(** C3: for every sequence of commit records, the values of the
    [commits_by_date] mapping that [calculate_stats] returns sum to the
    returned [total_commits]; the mapping holds, under each day, the number
    of records whose time stamp has that day before its first white space,
    and no other key. *)
Theorem C3_buckets_sum_to_total (cs : list commit) :
  Forall has_date cs ->
  exists s, calculate_stats cs = Returns s
    /\ sum_values (commits_by_date s) = total_commits s
    /\ (forall k, commits_by_date s !! k =
          if decide (count_key k cs = 0) then None else Some (count_key k cs))
    /\ (forall c d w rest,
          date c = d ++ w :: rest -> d <> [] ->
          Forall (fun ch => Str.isspace ch = false) d -> Str.isspace w = true ->
          date_key c = Some d).
Proof.
  intros Hcs.
  destruct (calculate_stats_counts cs Hcs) as (s & Hs & Hlen & Hsum & Hlook).
  exists s. split; [done|]. split; [by rewrite Hsum, Hlen|].
  split; [done | apply date_key_truncates].
Qed.

Lemma C3_witness :
  Forall has_date sample_log
  /\ exists s, calculate_stats sample_log = Returns s
    /\ sum_values (commits_by_date s) = total_commits s
    /\ (forall k, commits_by_date s !! k =
          if decide (count_key k sample_log = 0) then None
          else Some (count_key k sample_log))
    /\ (forall c d w rest,
          date c = d ++ w :: rest -> d <> [] ->
          Forall (fun ch => Str.isspace ch = false) d -> Str.isspace w = true ->
          date_key c = Some d).
Proof.
  split; [|apply (C3_buckets_sum_to_total sample_log)];
    repeat constructor; eexists; reflexivity.
Defined.

(** C4: applied to the empty sequence, [calculate_stats] returns, without
    an error, zero commits, an empty mapping and neither a first nor a last
    commit. *)
Theorem C4_empty_input :
  calculate_stats [] =
    Returns {| total_commits := 0; commits_by_date := ∅;
               first_commit := None; last_commit := None |}.
Proof. reflexivity. Qed.

(** C5: for every sequence with at least one commit record, the
    [first_commit] that [calculate_stats] returns is a record of the
    sequence whose time stamp is the least in the order of strings, the
    [last_commit] one whose time stamp is the greatest, and the time stamp
    of the first is at most the one of the last. *)
Theorem C5_first_and_last_are_extrema (cs : list commit) :
  cs <> [] -> Forall has_date cs ->
  exists s f l,
    calculate_stats cs = Returns s
    /\ first_commit s = Some f /\ last_commit s = Some l
    /\ f ∈ cs /\ l ∈ cs
    /\ (forall c, c ∈ cs -> Str.le (date f) (date c))
    /\ (forall c, c ∈ cs -> Str.le (date c) (date l))
    /\ Str.le (date f) (date l).
Proof.
  intros Hne Hcs.
  destruct (calculate_stats_returns cs Hne Hcs) as (m & _ & ->).
  destruct (head_sorted cs Hne) as (i & f & Hi & Hf & Hmin & _).
  destruct (last_sorted cs Hne) as (j & l & Hj & Hl & _ & Hmax & _).
  exists {| total_commits := Z.of_nat (length cs); commits_by_date := m;
            first_commit := head (sorted cs);
            last_commit := last (sorted cs) |}, f, l.
  assert (l ∈ cs) by (by eapply list_elem_of_lookup_2).
  repeat split; simpl; try done; [by eapply list_elem_of_lookup_2 | by apply Hmin].
Qed.

Lemma C5_witness :
  sample_log <> [] /\ Forall has_date sample_log
  /\ exists s f l,
    calculate_stats sample_log = Returns s
    /\ first_commit s = Some f /\ last_commit s = Some l
    /\ f ∈ sample_log /\ l ∈ sample_log
    /\ (forall c, c ∈ sample_log -> Str.le (date f) (date c))
    /\ (forall c, c ∈ sample_log -> Str.le (date c) (date l))
    /\ Str.le (date f) (date l).
Proof.
  split; [discriminate|].
  split; [|apply (C5_first_and_last_are_extrema sample_log); [discriminate|]];
    repeat constructor; eexists; reflexivity.
Defined.

(** C8: for every sequence of commit records and every permutation of it,
    [calculate_stats] returns the same [total_commits] and an equal
    [commits_by_date] mapping: the counts do not depend on the order of the
    input. *)
Theorem C8_counts_independent_of_order (cs cs' : list commit) :
  Forall has_date cs -> cs ≡ₚ cs' ->
  exists s s',
    calculate_stats cs = Returns s /\ calculate_stats cs' = Returns s'
    /\ total_commits s = total_commits s'
    /\ commits_by_date s = commits_by_date s'.
Proof.
  intros Hcs Hperm.
  assert (Forall has_date cs') as Hcs' by (by rewrite <- Hperm).
  destruct (calculate_stats_counts cs Hcs) as (s & Hs & Hlen & _ & Hlook).
  destruct (calculate_stats_counts cs' Hcs') as (s' & Hs' & Hlen' & _ & Hlook').
  exists s, s'. repeat split; [done..| |].
  - rewrite Hlen, Hlen'. by rewrite Hperm.
  - apply map_eq. intros k.
    by rewrite Hlook, Hlook', (count_key_perm k cs cs' Hperm).
Qed.

Lemma C8_witness :
  Forall has_date sample_log /\ sample_log ≡ₚ reverse sample_log
  /\ exists s s',
    calculate_stats sample_log = Returns s
    /\ calculate_stats (reverse sample_log) = Returns s'
    /\ total_commits s = total_commits s'
    /\ commits_by_date s = commits_by_date s'.
Proof.
  assert (Forall has_date sample_log) as Hd
    by (repeat constructor; eexists; reflexivity).
  assert (sample_log ≡ₚ reverse sample_log) as Hp
    by (symmetry; apply reverse_Permutation).
  split; [exact Hd|]. split; [exact Hp|].
  exact (C8_counts_independent_of_order sample_log (reverse sample_log) Hd Hp).
Defined.

(** C9: [calculate_stats] resolves equal time stamps by the order of the
    input, the sort being stable: of the records with the least time stamp,
    [first_commit] is the one that occurs first in the sequence, and of the
    records with the greatest time stamp, [last_commit] is the one that
    occurs last. *)
Theorem C9_ties_resolved_by_input_order (cs : list commit) :
  cs <> [] -> Forall has_date cs ->
  exists s i f j l,
    calculate_stats cs = Returns s
    /\ first_commit s = Some f /\ cs !! i = Some f
    /\ (forall c, c ∈ cs -> Str.le (date f) (date c))
    /\ (forall k c, (k < i)%nat -> cs !! k = Some c -> Str.lt (date f) (date c))
    /\ last_commit s = Some l /\ cs !! j = Some l
    /\ (forall c, c ∈ cs -> Str.le (date c) (date l))
    /\ (forall k c, (j < k)%nat -> cs !! k = Some c -> Str.lt (date c) (date l)).
Proof.
  intros Hne Hcs.
  destruct (calculate_stats_returns cs Hne Hcs) as (m & _ & ->).
  destruct (head_sorted cs Hne) as (i & f & Hi & Hf & Hmin & Hfirst).
  destruct (last_sorted cs Hne) as (j & l & Hj & Hl & _ & Hmax & Hlast).
  exists {| total_commits := Z.of_nat (length cs); commits_by_date := m;
            first_commit := head (sorted cs);
            last_commit := last (sorted cs) |}, i, f, j, l.
  repeat split; simpl; done.
Qed.

Lemma C9_witness :
  sample_log <> [] /\ Forall has_date sample_log
  /\ exists s i f j l,
    calculate_stats sample_log = Returns s
    /\ first_commit s = Some f /\ sample_log !! i = Some f
    /\ (forall c, c ∈ sample_log -> Str.le (date f) (date c))
    /\ (forall k c, (k < i)%nat -> sample_log !! k = Some c ->
                    Str.lt (date f) (date c))
    /\ last_commit s = Some l /\ sample_log !! j = Some l
    /\ (forall c, c ∈ sample_log -> Str.le (date c) (date l))
    /\ (forall k c, (j < k)%nat -> sample_log !! k = Some c ->
                    Str.lt (date c) (date l)).
Proof.
  split; [discriminate|].
  split; [|apply (C9_ties_resolved_by_input_order sample_log); [discriminate|]];
    repeat constructor; eexists; reflexivity.
Defined.

(** ** Dates and their text *)

Section Dates.

Import Datetime.

(** The month of every ordinal is one of the twelve. *)
Lemma month_range n : 1 <= (ord2ymd n).1.2 <= 12.
Proof.
  unfold ord2ymd. cbv zeta.
  set (r := (((n - 1) mod DI400Y) mod DI100Y mod DI4Y) mod 365).
  assert (0 <= r < 365) as Hr by (apply Z.mod_pos_bound; lia).
  destruct (_ || _); [simpl; lia|].
  generalize ((((n - 1) mod DI400Y) mod DI100Y mod DI4Y / 365 =? 3)
              && (negb (((n - 1) mod DI400Y) mod DI100Y / DI4Y =? 24)
                  || ((n - 1) mod DI400Y / DI100Y =? 3))).
  intros leap. rewrite Z.shiftr_div_pow2 by lia. change (2 ^ 5) with 32.
  set (mo := (r + 50) / 32).
  assert (1 <= mo <= 12) as Hmo.
  { subst mo. split; [apply Z.div_le_lower_bound; lia|].
    apply Z.lt_succ_r. apply Z.div_lt_upper_bound; lia. }
  clearbody mo r.
  assert (mo = 1 \/ mo = 2 \/ mo = 3 \/ mo = 4 \/ mo = 5 \/ mo = 6 \/ mo = 7
          \/ mo = 8 \/ mo = 9 \/ mo = 10 \/ mo = 11 \/ mo = 12) as Hcases by lia.
  destruct leap;
    repeat (destruct Hcases as [->|Hcases]); try subst mo; simpl;
    repeat match goal with
           | |- context [?a <? ?b] => destruct (Z.ltb_spec a b)
           end;
    unfold table in *; simpl in *; lia.
Qed.

Lemma digit_not_dash k : digit k <> 45%N.
Proof. unfold digit. lia. Qed.

Lemma zero_padded_no_dash w : forall n,
  Forall (fun ch => ch <> 45%N) (zero_padded w n).
Proof.
  induction w as [|w IH]; intros n; simpl; [constructor|].
  apply Forall_app. split; [apply IH|].
  constructor; [apply digit_not_dash | constructor].
Qed.

(** Splitting at the first separator. *)
Lemma split_on_app sep a b :
  Forall (fun ch => ch <> sep) a ->
  Str.split_on sep (a ++ sep :: b) = a :: Str.split_on sep b.
Proof.
  induction a as [|ch a IH]; intros Ha; simpl.
  - by rewrite N.eqb_refl.
  - apply Forall_cons in Ha as [Hch Ha].
    apply N.eqb_neq in Hch. rewrite Hch. by rewrite IH.
Qed.

(** The second field of a date text is its month in two digits. *)
Lemma split_strftime_ymd d :
  Str.split_on 45 (strftime_ymd d) !! 1%nat = Some (zero_padded 2 (month d)).
Proof.
  unfold strftime_ymd. change (py "-") with [45%N].
  change (zero_padded 4 (year d) ++ [45%N] ++ zero_padded 2 (month d)
          ++ [45%N] ++ zero_padded 2 (day d))
    with (zero_padded 4 (year d)
          ++ 45%N :: (zero_padded 2 (month d) ++ 45%N :: zero_padded 2 (day d))).
  rewrite split_on_app by apply zero_padded_no_dash.
  by rewrite split_on_app by apply zero_padded_no_dash.
Qed.

(** The two digits of a month are read back as the month. *)
Lemma strptime_m_zero_padded m :
  1 <= m <= 12 -> strptime_m (zero_padded 2 m) = Returns m.
Proof.
  intros Hm.
  assert (m = 1 \/ m = 2 \/ m = 3 \/ m = 4 \/ m = 5 \/ m = 6 \/ m = 7
          \/ m = 8 \/ m = 9 \/ m = 10 \/ m = 11 \/ m = 12) as Hcases by lia.
  repeat (destruct Hcases as [->|Hcases]); try subst m; reflexivity.
Qed.

Lemma window_nil start days : days <= 0 -> window start days = [].
Proof. intros Hd. unfold window. by rewrite seqZ_nil. Qed.

Lemma window_cons start days :
  0 < days ->
  window start days = strftime_ymd (Date start) :: window (start + 1) (days - 1).
Proof. intros Hd. unfold window. by rewrite seqZ_cons. Qed.

Lemma length_window start days : length (window start days) = Z.to_nat days.
Proof. unfold window. by rewrite length_fmap, length_seqZ. Qed.

Lemma lookup_window start days i :
  Z.of_nat i < days ->
  window start days !! i = Some (strftime_ymd (Date (start + Z.of_nat i))).
Proof.
  intros Hi. unfold window. by rewrite list_lookup_fmap, lookup_seqZ_lt.
Qed.

Lemma window_dates start days :
  Forall (fun date_str => exists d, date_str = strftime_ymd d) (window start days).
Proof.
  unfold window. apply Forall_fmap, Forall_forall. intros o _. by eexists.
Qed.

(** From 1000-01-01 on the year has four digits, so that its text has no
    padding. *)
Lemma year_four_digits o :
  ymd2ord 1000 1 1 <= o <= MAXORDINAL -> 1000 <= year (Date o) <= 9999.
Proof.
  intros Ho. change (ymd2ord 1000 1 1) with 364878 in Ho.
  unfold MAXORDINAL in Ho.
  unfold year, ord2ymd. cbn [toordinal]. cbv zeta.
  unfold DI400Y, DI100Y, DI4Y.
  destruct (_ || _) eqn:Hend.
  - cbn [fst]. apply orb_true_iff in Hend.
    rewrite !Z.eqb_eq in Hend. Z.div_mod_to_equations. lia.
  - destruct (_ <? _); cbn [fst]; Z.div_mod_to_equations; lia.
Qed.

(** The [while] loop returns the dates from the start to the end, given
    more fuel than there are dates. *)
Lemma dates_until_window (n : nat) : forall fuel s e acc,
  0 <= s -> e < MAXORDINAL ->
  Z.of_nat n = Z.max 0 (e - s + 1) -> (n < fuel)%nat ->
  dates_until fuel (Date s) (Date e) acc = Returns (acc ++ window s (Z.of_nat n)).
Proof.
  induction n as [|n IH]; intros [|fuel] s e acc Hs He Hn Hfuel; try lia.
  - simpl. unfold date_le. simpl toordinal.
    destruct (Z.leb_spec s e); [lia|]. by rewrite app_nil_r.
  - cbn [dates_until]. unfold date_le. cbn [toordinal].
    destruct (Z.leb_spec s e); [|lia].
    change (timedelta 1) with (Returns (A:=Z) 1).
    change (Returns 1 ≫= ?k) with (k 1). cbv beta.
    unfold date_add. cbn [toordinal].
    assert ((0 <? s + 1) && (s + 1 <=? MAXORDINAL) = true) as ->.
    { apply andb_true_iff. split; [apply Z.ltb_lt | apply Z.leb_le]; lia. }
    change (Returns ?d ≫= ?k) with (k d). cbv beta.
    rewrite (IH fuel (s + 1) e) by lia.
    rewrite (window_cons s (Z.of_nat (S n))) by lia.
    rewrite <- app_assoc.
    replace (Z.of_nat (S n) - 1) with (Z.of_nat n) by lia. done.
Qed.

(** The loop over the dates of a window finds a label for each of its
    months. *)
Lemma month_labels_returns date_range : forall months current_month,
  Forall (fun date_str => exists d, date_str = strftime_ymd d) date_range ->
  exists labels, month_labels date_range months current_month = Returns labels.
Proof.
  induction date_range as [|date_str rest IH]; intros months cur Hdates.
  - by eexists.
  - apply Forall_cons in Hdates as [[d ->] Hrest].
    cbn [month_labels]. unfold getitem. rewrite split_strftime_ymd.
    change (Returns ?d ≫= ?k) with (k d). cbv beta.
    case_decide; [|by apply IH].
    rewrite strptime_m_zero_padded by apply month_range.
    change (Returns ?d ≫= ?k) with (k d). cbv beta.
    by apply IH.
Qed.

End Dates.

(** ** The lines of the graph *)

Section Graph.

Import Datetime.

Implicit Types (commits_by_date : gmap pystr Z) (date_range : list pystr).

Lemma cells_row_cells commits_by_date date_range :
  cells_row commits_by_date date_range
  = py "    " ++ day_cells commits_by_date date_range.
Proof.
  unfold cells_row, day_cells. generalize (py "    ").
  induction date_range as [|date_str rest IH]; intros row; simpl.
  - by rewrite app_nil_r.
  - rewrite IH. by rewrite <- !app_assoc.
Qed.

Lemma lookup_day_cells commits_by_date date_range : forall i date_str,
  date_range !! i = Some date_str ->
  day_cells commits_by_date date_range !! (2 * i)%nat
    = Some (cell (default 0 (commits_by_date !! date_str)))
  /\ day_cells commits_by_date date_range !! (2 * i + 1)%nat = Some space.
Proof.
  induction date_range as [|d rest IH]; intros [|i] date_str Hi; try done.
  - simpl in Hi. by simplify_eq.
  - simpl in Hi. destruct (IH i date_str Hi) as [Hcell Hspace].
    replace (2 * S i)%nat with (S (S (2 * i))) by lia.
    replace (S (S (2 * i)) + 1)%nat with (S (S (2 * i + 1))) by lia.
    done.
Qed.

Lemma lookup_cells_row commits_by_date date_range i date_str :
  date_range !! i = Some date_str ->
  cells_row commits_by_date date_range !! (4 + 2 * i)%nat
    = Some (cell (default 0 (commits_by_date !! date_str)))
  /\ cells_row commits_by_date date_range !! (4 + 2 * i + 1)%nat = Some space.
Proof.
  intros Hi. rewrite cells_row_cells.
  destruct (lookup_day_cells commits_by_date date_range i date_str Hi)
    as [Hcell Hspace].
  change (py "    ") with [space; space; space; space].
  replace (4 + 2 * i + 1)%nat with (4 + (2 * i + 1))%nat by lia.
  done.
Qed.

Lemma cell_is_cell count : is_cell (cell count).
Proof.
  unfold is_cell, cell.
  destruct (count =? 0); [|destruct (count <? 5); [|destruct (count <? 10)]];
    auto.
Qed.

Lemma cell_thresholds count :
  (count = 0 -> cell count = NO_COMMITS)
  /\ (1 <= count <= 4 -> cell count = LOW)
  /\ (5 <= count <= 9 -> cell count = MEDIUM)
  /\ (10 <= count -> cell count = HIGH).
Proof.
  unfold cell.
  destruct (Z.eqb_spec count 0), (Z.ltb_spec count 5), (Z.ltb_spec count 10);
    repeat split; intros; try lia; done.
Qed.

(** The cells of the line are those of its dates. *)
Lemma cells_row_count commits_by_date date_range :
  length (filter is_cell (cells_row commits_by_date date_range))
  = length date_range.
Proof.
  rewrite cells_row_cells, filter_app.
  change (filter is_cell (py "    ")) with (@nil N). simpl app.
  unfold day_cells.
  induction date_range as [|d rest IH]; [done|].
  cbn [fmap list_fmap mjoin list_join app].
  rewrite filter_cons_True by apply cell_is_cell.
  rewrite filter_cons_False.
  - simpl. f_equal. exact IH.
  - unfold is_cell, space, NO_COMMITS, LOW, MEDIUM, HIGH. lia.
Qed.

(** The run of [generate_ascii_graph] when the first day of the window is
    a date and the last one is before the last date there is. *)
Lemma generate_ascii_graph_runs fuel today commits_by_date days :
  let start := toordinal today - (days - 1) in
  0 < toordinal today -> 0 < start <= MAXORDINAL ->
  toordinal today < MAXORDINAL -> Z.max 0 days < Z.of_nat fuel ->
  exists months,
    month_labels (window start days) [] [] = Returns months
    /\ generate_ascii_graph fuel today commits_by_date days
       = Returns (Str.join newline
                    ([month_header months;
                      cells_row commits_by_date (window start days)] ++ legend)).
Proof.
  intros start Htoday Hstart Hmax Hfuel.
  destruct (month_labels_returns (window start days) [] [] (window_dates _ _))
    as [months Hmonths].
  exists months. split; [done|].
  unfold generate_ascii_graph, timedelta.
  assert ((-999999999 <=? days - 1) && (days - 1 <=? 999999999) = true) as ->.
  { unfold MAXORDINAL in *.
    apply andb_true_iff. split; apply Z.leb_le; lia. }
  change (Returns ?d ≫= ?k) with (k d). cbv beta.
  unfold date_sub, date_add.
  replace (toordinal today + - (days - 1)) with start by (subst start; lia).
  assert ((0 <? start) && (start <=? MAXORDINAL) = true) as ->.
  { apply andb_true_iff. split; [apply Z.ltb_lt | apply Z.leb_le]; lia. }
  change (Returns ?d ≫= ?k) with (k d). cbv beta.
  destruct today as [e]. cbn [toordinal] in *.
  rewrite (dates_until_window (Z.to_nat days) fuel start e []); try lia.
  change (Returns ?d ≫= ?k) with (k d). cbv beta.
  rewrite app_nil_l.
  replace (Z.of_nat (Z.to_nat days)) with (Z.max 0 days) by lia.
  assert (window start (Z.max 0 days) = window start days) as ->.
  { destruct (Z.max_spec 0 days) as [[? ->]|[? ->]]; [done|].
    by rewrite !window_nil by lia. }
  by rewrite Hmonths.
Qed.

End Graph.

(** ** Properties of [generate_ascii_graph] *)

(** The line of cells for the counts of three days, drawn on 2024-01-05 for
    five days: low, medium, none, none, high. *)
Example cells_row_of_sample :
  cells_row sample_counts (window (Datetime.ymd2ord 2024 1 1) 5)
  = py "    " ++ [LOW; space; MEDIUM; space; NO_COMMITS; space;
                  NO_COMMITS; space; HIGH; space].
Proof. reflexivity. Qed.

(** C1: the label of a month is to start at column 4 + 2 * dayIndex, the
    index being the one of the first day of that month in the window. Drawn
    on 2024-02-02 for five days, the window starts on 2024-01-29 and its day
    of index 3 is 2024-02-01, so that the label of February is to start at
    column 10; the header the code builds is four spaces, Jan, two spaces,
    Feb, in which the label starts at column 9: the position kept with a
    label is the number of labels before it, not the index of the day, and
    the spaces are added after the labels already written. *)
Theorem C1_label_column_at_month_boundary :
  let dates := window (Datetime.ymd2ord 2024 1 29) 5 in
  generate_ascii_graph 6 february_today ∅ 5
    = Returns (Str.join newline ([py "    Jan  Feb"; cells_row ∅ dates] ++ legend))
  /\ month_labels dates [] [] = Returns [(0%nat, py "Jan"); (1%nat, py "Feb")]
  /\ dates !! 2%nat = Some (py "2024-01-31")
  /\ dates !! 3%nat = Some (py "2024-02-01")
  /\ find_str (py "Feb") (py "    Jan  Feb") = Some 9%nat
  /\ 9%nat <> (4 + 2 * 3)%nat.
Proof. vm_compute. repeat split; discriminate. Qed.

(** C6: for every day of the window, the cell of that day in the line of
    cells is chosen from the number of commits of the day, a day without an
    entry counting as zero: no commit gives the cell of no activity, one to
    four the low one, five to nine the medium one, ten or more the high
    one. The window starts on 1000-01-01 or later, where the text of a day,
    the key of its count, is the one of four digits for the year. *)
Theorem C6_cell_of_each_day (fuel : nat) (today : Datetime.date)
    (commits_by_date : gmap pystr Z) (days : Z) (i : nat) :
  0 < days -> days <= Datetime.toordinal today ->
  Datetime.ymd2ord 1000 1 1 <= Datetime.toordinal today - (days - 1) ->
  Datetime.toordinal today < Datetime.MAXORDINAL ->
  days < Z.of_nat fuel -> Z.of_nat i < days ->
  let start := Datetime.toordinal today - (days - 1) in
  let date_str := Datetime.strftime_ymd (Datetime.Date (start + Z.of_nat i)) in
  let count := default 0 (commits_by_date !! date_str) in
  let row := cells_row commits_by_date (window start days) in
  exists header,
    generate_ascii_graph fuel today commits_by_date days
      = Returns (Str.join newline ([header; row] ++ legend))
    /\ window start days !! i = Some date_str
    /\ 1000 <= Datetime.year (Datetime.Date (start + Z.of_nat i)) <= 9999
    /\ row !! (4 + 2 * i)%nat = Some (cell count)
    /\ (count = 0 -> cell count = NO_COMMITS)
    /\ (1 <= count <= 4 -> cell count = LOW)
    /\ (5 <= count <= 9 -> cell count = MEDIUM)
    /\ (10 <= count -> cell count = HIGH).
Proof.
  intros Hdays Hfirst Hyear Hmax Hfuel Hi start date_str count row.
  destruct (generate_ascii_graph_runs fuel today commits_by_date days)
    as (months & _ & Hrun); [lia..|].
  exists (month_header months). split; [exact Hrun|].
  assert (window start days !! i = Some date_str) as Hdate
    by (by apply lookup_window).
  split; [exact Hdate|].
  split; [apply year_four_digits; subst start; lia|].
  split; [by apply lookup_cells_row|].
  apply cell_thresholds.
Qed.

Lemma C6_witness :
  0 < 5 /\ 5 <= Datetime.toordinal sample_today
  /\ Datetime.ymd2ord 1000 1 1 <= Datetime.toordinal sample_today - (5 - 1)
  /\ Datetime.toordinal sample_today < Datetime.MAXORDINAL
  /\ 5 < Z.of_nat 6 /\ Z.of_nat 4 < 5
  /\ let start := Datetime.toordinal sample_today - (5 - 1) in
     let date_str := Datetime.strftime_ymd (Datetime.Date (start + Z.of_nat 4)) in
     let count := default 0 (sample_counts !! date_str) in
     let row := cells_row sample_counts (window start 5) in
     exists header,
       generate_ascii_graph 6 sample_today sample_counts 5
         = Returns (Str.join newline ([header; row] ++ legend))
       /\ window start 5 !! 4%nat = Some date_str
       /\ 1000 <= Datetime.year (Datetime.Date (start + Z.of_nat 4)) <= 9999
       /\ row !! (4 + 2 * 4)%nat = Some (cell count)
       /\ (count = 0 -> cell count = NO_COMMITS)
       /\ (1 <= count <= 4 -> cell count = LOW)
       /\ (5 <= count <= 9 -> cell count = MEDIUM)
       /\ (10 <= count -> cell count = HIGH).
Proof.
  repeat (split; [by vm_compute|]).
  apply (C6_cell_of_each_day 6 sample_today sample_counts 5 4); by vm_compute.
Defined.

(** C7, as the code has it: [date] ends at 9999-12-31 and starts at
    0001-01-01. For every [days > 0] that does not reach before the first
    date, on a day before the last date, the window is the [days] days that
    end today, in ascending order, and the line of cells has exactly [days]
    cells, one for each of these days, each followed by one space. *)
Theorem C7_window_and_row (fuel : nat) (today : Datetime.date)
    (commits_by_date : gmap pystr Z) (days : Z) :
  0 < days -> days <= Datetime.toordinal today ->
  Datetime.toordinal today < Datetime.MAXORDINAL ->
  days < Z.of_nat fuel ->
  let start := Datetime.toordinal today - (days - 1) in
  let dates := window start days in
  let row := cells_row commits_by_date dates in
  exists header,
    generate_ascii_graph fuel today commits_by_date days
      = Returns (Str.join newline ([header; row] ++ legend))
    /\ Z.of_nat (length dates) = days
    /\ (forall i, Z.of_nat i < days ->
          dates !! i = Some (Datetime.strftime_ymd (Datetime.Date (start + Z.of_nat i))))
    /\ start + (days - 1) = Datetime.toordinal today
    /\ row = py "    " ++ day_cells commits_by_date dates
    /\ Z.of_nat (length (filter is_cell row)) = days.
Proof.
  intros Hdays Hfirst Hmax Hfuel start dates row.
  destruct (generate_ascii_graph_runs fuel today commits_by_date days)
    as (months & _ & Hrun); [lia..|].
  exists (month_header months). split; [exact Hrun|].
  split; [subst dates; rewrite length_window; lia|].
  split; [intros i Hi; by apply lookup_window|].
  split; [subst start; lia|].
  split; [apply cells_row_cells|].
  subst row dates. rewrite cells_row_count, length_window. lia.
Qed.

Lemma C7_witness :
  0 < 7 /\ 7 <= Datetime.toordinal sample_today
  /\ Datetime.toordinal sample_today < Datetime.MAXORDINAL
  /\ 7 < Z.of_nat 8
  /\ let start := Datetime.toordinal sample_today - (7 - 1) in
     let dates := window start 7 in
     let row := cells_row sample_counts dates in
     exists header,
       generate_ascii_graph 8 sample_today sample_counts 7
         = Returns (Str.join newline ([header; row] ++ legend))
       /\ Z.of_nat (length dates) = 7
       /\ (forall i, Z.of_nat i < 7 ->
             dates !! i
             = Some (Datetime.strftime_ymd (Datetime.Date (start + Z.of_nat i))))
       /\ start + (7 - 1) = Datetime.toordinal sample_today
       /\ row = py "    " ++ day_cells sample_counts dates
       /\ Z.of_nat (length (filter is_cell row)) = 7.
Proof.
  repeat (split; [by vm_compute|]).
  apply (C7_window_and_row 8 sample_today sample_counts 7); by vm_compute.
Defined.

(** C7 as stated fails: asked for a million days on 2024-01-05, the first
    day of the window would be before 0001-01-01, and the subtraction of
    dates raises [OverflowError]; no line of cells is made, whatever the
    fuel. *)
Lemma C7_counterexample :
  0 < 1000000
  /\ forall fuel, generate_ascii_graph fuel sample_today sample_counts 1000000
                  = Raises OverflowError.
Proof. split; [lia|]. intros fuel. reflexivity. Qed.

(** C10, as the code has it: the function returns, without an error, for
    every integer [days] for which the first day of the window,
    [today - (days - 1)], is a date, today being before the last date; when
    [days <= 0] the range of dates is then empty, and the text has a header
    with no label and a line with no cell, four spaces each, and then the
    legend. *)
Theorem C10_returns_in_range (fuel : nat) (today : Datetime.date)
    (commits_by_date : gmap pystr Z) (days : Z) :
  0 < Datetime.toordinal today < Datetime.MAXORDINAL ->
  0 < Datetime.toordinal today - (days - 1) <= Datetime.MAXORDINAL ->
  Z.max 0 days < Z.of_nat fuel ->
  exists text,
    generate_ascii_graph fuel today commits_by_date days = Returns text
    /\ (days <= 0 ->
        text = Str.join newline ([py "    "; py "    "] ++ legend)
        /\ filter is_cell (py "    ") = []).
Proof.
  intros Htoday Hstart Hfuel.
  destruct (generate_ascii_graph_runs fuel today commits_by_date days)
    as (months & Hmonths & Hrun); [lia..|].
  eexists. split; [exact Hrun|]. intros Hdays.
  rewrite window_nil in Hmonths |- * by lia.
  simpl in Hmonths. simplify_eq. done.
Qed.

Lemma C10_witness :
  0 < Datetime.toordinal sample_today < Datetime.MAXORDINAL
  /\ 0 < Datetime.toordinal sample_today - (-3 - 1) <= Datetime.MAXORDINAL
  /\ Z.max 0 (-3) < Z.of_nat 1
  /\ exists text,
       generate_ascii_graph 1 sample_today sample_counts (-3) = Returns text
       /\ (-3 <= 0 ->
           text = Str.join newline ([py "    "; py "    "] ++ legend)
           /\ filter is_cell (py "    ") = []).
Proof.
  repeat (split; [by vm_compute|]).
  apply (C10_returns_in_range 1 sample_today sample_counts (-3)); by vm_compute.
Defined.

(** C10 as stated fails: the function is not total on the integers. Asked
    for minus three million days on 2024-01-05, the first day of the window
    would be after 9999-12-31, and the subtraction of dates raises
    [OverflowError], whatever the fuel. *)
Lemma C10_counterexample :
  -3000000 <= 0
  /\ forall fuel, generate_ascii_graph fuel sample_today sample_counts (-3000000)
                  = Raises OverflowError.
Proof. split; [lia|]. intros fuel. reflexivity. Qed.

(** ** More on [calculate_stats] *)

Section StatisticsErrors.

Import StrOrder.

Lemma split_ws_nil s : forall cur,
  Str.split_ws s cur = [] <-> cur = [] /\ blank s.
Proof.
  unfold blank. induction s as [|ch s IH]; intros cur; simpl.
  - destruct cur; split; try done. by intros [? _].
  - destruct (Str.isspace ch) eqn:Hch.
    + destruct cur as [|x cur].
      * rewrite IH. split; intros [? Hs]; split; try done.
        -- by constructor.
        -- by apply Forall_cons in Hs as [_ Hs].
      * split; [done | by intros [? _]].
    + rewrite IH. split.
      * intros [Hcur _]. by destruct cur.
      * intros [_ Hs]. apply Forall_cons in Hs as [Hs _]. congruence.
Qed.

Lemma date_str_of_blank c :
  blank (date c) -> date_str_of c = Raises IndexError.
Proof.
  intros Hb. unfold date_str_of, getitem, Str.split.
  by rewrite (proj2 (split_ws_nil (date c) []) (conj eq_refl Hb)).
Qed.

Lemma has_date_not_blank c : has_date c <-> ~ blank (date c).
Proof.
  rewrite has_date_key. unfold date_key, Str.split. split.
  - intros [d Hd] Hb.
    by rewrite (proj2 (split_ws_nil (date c) []) (conj eq_refl Hb)) in Hd.
  - intros Hnb. destruct (Str.split_ws (date c) []) as [|d l] eqn:Hs.
    + apply split_ws_nil in Hs as [_ Hs]. done.
    + by exists d.
Qed.

Lemma blank_or_dated cs :
  Forall (fun c => ~ blank (date c)) cs \/ Exists (fun c => blank (date c)) cs.
Proof.
  induction cs as [|c cs [IH|IH]].
  - left. constructor.
  - destruct (decide (blank (date c))) as [Hb|Hnb].
    + right. by left.
    + left. by constructor.
  - right. by right.
Qed.

Lemma count_by_date_raises cs : forall m,
  Exists (fun c => blank (date c)) cs -> count_by_date cs m = Raises IndexError.
Proof.
  induction cs as [|c cs IH]; intros m Hex; [by apply Exists_nil in Hex|].
  simpl. destruct (decide (blank (date c))) as [Hb|Hnb].
  - by rewrite date_str_of_blank.
  - apply has_date_not_blank in Hnb as [d Hd]. rewrite Hd.
    apply Exists_cons in Hex as [Hb|Hex]; [|by apply IH].
    by rewrite date_str_of_blank in Hd.
Qed.

Lemma size_count_commit (k : pystr) (m : gmap pystr Z) :
  (size (count_commit k m) <= S (size m))%nat.
Proof.
  unfold count_commit. destruct (m !! k) as [n|] eqn:Hk.
  - rewrite <- insert_delete_eq, map_size_insert_None by apply lookup_delete_eq.
    pose proof (map_size_delete k m) as Hd. rewrite Hk in Hd. lia.
  - rewrite map_size_insert_None by done. lia.
Qed.

Lemma size_count_by_date cs : forall (m m' : gmap pystr Z),
  count_by_date cs m = Returns m' -> (size m' <= size m + length cs)%nat.
Proof.
  induction cs as [|c cs IH]; intros m m' Hrun; simpl in *.
  - simplify_eq. lia.
  - destruct (date_str_of c) as [d| |]; try done.
    apply IH in Hrun. pose proof (size_count_commit d m). lia.
Qed.

Lemma insert_sorted_perm x l : insert_sorted x l ≡ₚ x :: l.
Proof.
  induction l as [|y l IH]; simpl; [done|].
  destruct (Str.ltb (date y) (date x)); [|done].
  rewrite IH. apply Permutation_swap.
Qed.

Lemma insert_sorted_sorted x l :
  StronglySorted (fun a b => Str.le (date a) (date b)) l ->
  StronglySorted (fun a b => Str.le (date a) (date b)) (insert_sorted x l).
Proof.
  induction 1 as [|y l Hl IH Hy]; simpl.
  - repeat constructor.
  - destruct (Str.ltb (date y) (date x)) eqn:Hyx.
    + constructor; [done|]. rewrite insert_sorted_perm.
      constructor; [|done]. by apply lt_le, ltb_true.
    + apply ltb_false in Hyx. constructor; [by constructor|].
      constructor; [done|].
      eapply Forall_impl; [exact Hy|]. intros z Hz. by eapply le_trans.
Qed.

Lemma filter_insert_sorted k x l :
  filter (fun c => date c = k) (insert_sorted x l)
  = filter (fun c => date c = k) (x :: l).
Proof.
  induction l as [|y l IH]; simpl; [done|].
  destruct (Str.ltb (date y) (date x)) eqn:Hyx; [|done].
  apply ltb_true in Hyx.
  assert (date y <> date x) as Hne.
  { intros Heq. rewrite Heq in Hyx. by apply lt_irrefl in Hyx. }
  rewrite (filter_cons _ y), IH, !filter_cons.
  repeat case_decide; simplify_eq; done.
Qed.

End StatisticsErrors.

(** X1: [calculate_stats] raises [IndexError] exactly when a commit of the
    list has a blank time stamp (empty, or white space only), and returns
    exactly when no commit has one; nothing else can happen. *)
Theorem calculate_stats_raises_iff_blank (cs : list commit) :
  (calculate_stats cs = Raises IndexError
   <-> Exists (fun c => blank (date c)) cs)
  /\ ((exists s, calculate_stats cs = Returns s)
      <-> Forall (fun c => ~ blank (date c)) cs).
Proof.
  assert (Forall (fun c => ~ blank (date c)) cs <-> Forall has_date cs) as Hd.
  { apply Forall_proper; [|done]. intros c. by rewrite has_date_not_blank. }
  assert (Exists (fun c => blank (date c)) cs ->
          calculate_stats cs = Raises IndexError) as Hraise.
  { intros Hex. destruct cs as [|c cs]; [by apply Exists_nil in Hex|].
    unfold calculate_stats. by rewrite count_by_date_raises. }
  assert (Forall has_date cs -> exists s, calculate_stats cs = Returns s) as Hret.
  { intros H. destruct (calculate_stats_counts cs H) as (s & Hs & _). by exists s. }
  assert (Exists (fun c => blank (date c)) cs ->
          Forall (fun c => ~ blank (date c)) cs -> False) as Hboth.
  { rewrite Exists_exists, Forall_forall. intros (c & Hc & Hb) Hall.
    by apply (Hall c). }
  destruct (blank_or_dated cs) as [Hall|Hex].
  - destruct (Hret (proj1 Hd Hall)) as [s Hs]. rewrite Hs.
    split; split; try done.
    + intros Hex. by destruct (Hboth Hex Hall).
    + by exists s.
  - rewrite (Hraise Hex). split; [done|]. split; [by intros [s ?]|].
    intros Hall. by destruct (Hboth Hex Hall).
Qed.

(** X2: in the mapping that [calculate_stats] returns, every count is at
    least 1 and at most [total_commits], every key is the date part of a
    commit of the list, every commit of the list has its date part as a
    key, and there are at most [total_commits] keys. *)
Theorem commits_by_date_keys_and_bounds (cs : list commit) :
  Forall has_date cs ->
  exists s, calculate_stats cs = Returns s
    /\ (forall k n, commits_by_date s !! k = Some n ->
          1 <= n <= total_commits s
          /\ exists c, c ∈ cs /\ date_key c = Some k)
    /\ (forall c, c ∈ cs ->
          exists k n, date_key c = Some k /\ commits_by_date s !! k = Some n)
    /\ Z.of_nat (size (commits_by_date s)) <= total_commits s.
Proof.
  intros Hcs.
  destruct (calculate_stats_counts cs Hcs) as (s & Hs & Hlen & _ & Hlook).
  exists s. split; [done|]. split; [|split].
  - intros k n Hk. rewrite Hlook in Hk. case_decide as Hc; [done|].
    simplify_eq. rewrite Hlen. unfold count_key in *.
    pose proof (length_filter (fun c => date_key c = Some k) cs) as Hle.
    split; [lia|].
    destruct (filter (fun c => date_key c = Some k) cs) as [|c l] eqn:Hf;
      [done|].
    assert (c ∈ filter (fun c => date_key c = Some k) cs) as Hin
      by (rewrite Hf; by left).
    apply list_elem_of_filter in Hin as [Hkey Hin]. by exists c.
  - intros c Hc. rewrite Forall_forall in Hcs.
    destruct (proj1 (has_date_key c) (Hcs c Hc)) as [k Hk].
    exists k, (count_key k cs). split; [done|]. rewrite Hlook.
    case_decide as Hz; [|done]. unfold count_key in Hz.
    assert (c ∈ filter (fun c => date_key c = Some k) cs) as Hin
      by (by apply list_elem_of_filter).
    destruct (filter (fun c => date_key c = Some k) cs);
      [by apply not_elem_of_nil in Hin | simpl in Hz; lia].
  - rewrite Hlen. destruct cs as [|c cs].
    + simpl in Hs. simplify_eq. simpl. by rewrite map_size_empty.
    + destruct (calculate_stats_returns (c :: cs)) as (m & Hm & Hs'); [done..|].
      rewrite Hs in Hs'. simplify_eq. simpl commits_by_date.
      apply size_count_by_date in Hm. rewrite map_size_empty in Hm. lia.
Qed.

Lemma commits_by_date_keys_and_bounds_witness :
  Forall has_date sample_log
  /\ exists s, calculate_stats sample_log = Returns s
    /\ (forall k n, commits_by_date s !! k = Some n ->
          1 <= n <= total_commits s
          /\ exists c, c ∈ sample_log /\ date_key c = Some k)
    /\ (forall c, c ∈ sample_log ->
          exists k n, date_key c = Some k /\ commits_by_date s !! k = Some n)
    /\ Z.of_nat (size (commits_by_date s)) <= total_commits s.
Proof.
  split; [|apply (commits_by_date_keys_and_bounds sample_log)];
    repeat constructor; eexists; reflexivity.
Defined.

(** X3: the list that stands for [sorted(commits, key=...)] is the one
    Python's stable sort gives: it has the commits of the input, in
    ascending order of their time stamps, and the commits with the same
    time stamp are in the order they have in the input. *)
Theorem sorted_is_stable_sort (cs : list commit) :
  sorted cs ≡ₚ cs
  /\ StronglySorted (fun a b => Str.le (date a) (date b)) (sorted cs)
  /\ (forall k, filter (fun c => date c = k) (sorted cs)
                = filter (fun c => date c = k) cs).
Proof.
  induction cs as [|c cs (Hperm & Hsorted & Hstable)].
  - repeat split; [done | constructor].
  - change (sorted (c :: cs)) with (insert_sorted c (sorted cs)).
    split; [by rewrite insert_sorted_perm, Hperm|].
    split; [by apply insert_sorted_sorted|].
    intros k. rewrite filter_insert_sorted, !filter_cons, Hstable. done.
Qed.

(** ** More on [generate_ascii_graph] *)

Section GraphMore.

Import Datetime.

(** The dates the loop gives are dates between its two ends. *)
Lemma dates_until_elems fuel : forall s e acc date_range,
  dates_until fuel (Date s) (Date e) acc = Returns date_range ->
  forall d, d ∈ date_range ->
    d ∈ acc \/ exists o, s <= o <= e /\ d = strftime_ymd (Date o).
Proof.
  induction fuel as [|fuel IH]; intros s e acc dr Hrun d Hd; [done|].
  cbn [dates_until] in Hrun. unfold date_le in Hrun. cbn [toordinal] in Hrun.
  destruct (Z.leb_spec s e) as [Hse|Hse]; [|simplify_eq; by left].
  change (timedelta 1) with (Returns (A:=Z) 1) in Hrun.
  change (Returns 1 ≫= ?k) with (k 1) in Hrun. cbv beta in Hrun.
  unfold date_add in Hrun. cbn [toordinal] in Hrun.
  destruct ((0 <? s + 1) && (s + 1 <=? MAXORDINAL)); [|done].
  change (Returns ?x ≫= ?k) with (k x) in Hrun. cbv beta in Hrun.
  destruct (IH _ _ _ _ Hrun d Hd) as [Hacc|(o & Ho & ->)].
  - apply elem_of_app in Hacc as [Hacc|Hacc]; [by left|].
    apply list_elem_of_singleton in Hacc. right. exists s. split; [lia|done].
  - right. exists o. split; [lia|done].
Qed.

(** On the last date there is, the loop cannot step past its end. *)
Lemma dates_until_overflow (n : nat) : forall fuel s acc,
  0 <= s -> Z.of_nat n = MAXORDINAL - s -> (n < fuel)%nat ->
  dates_until fuel (Date s) (Date MAXORDINAL) acc = Raises OverflowError.
Proof.
  induction n as [|n IH]; intros [|fuel] s acc Hs Hn Hfuel; try lia.
  - assert (s = MAXORDINAL) as -> by lia. reflexivity.
  - cbn [dates_until]. unfold date_le. cbn [toordinal].
    destruct (Z.leb_spec s MAXORDINAL); [|lia].
    change (timedelta 1) with (Returns (A:=Z) 1).
    change (Returns 1 ≫= ?k) with (k 1). cbv beta.
    unfold date_add. cbn [toordinal].
    assert ((0 <? s + 1) && (s + 1 <=? MAXORDINAL) = true) as ->.
    { apply andb_true_iff. split; [apply Z.ltb_lt | apply Z.leb_le]; lia. }
    change (Returns ?d ≫= ?k) with (k d). cbv beta.
    apply IH; lia.
Qed.

Lemma cells_row_ext (m1 m2 : gmap pystr Z) date_range :
  Forall (fun d => m1 !! d = m2 !! d) date_range ->
  cells_row m1 date_range = cells_row m2 date_range.
Proof.
  intros Hagree. rewrite !cells_row_cells. f_equal. unfold day_cells. f_equal.
  induction Hagree as [|d l Hd _ IH]; [done|].
  rewrite !fmap_cons. by rewrite Hd, IH.
Qed.

End GraphMore.

(** X4: for a window that starts on 1000-01-01 or later, the graph depends
    on the counts of the days of the window only: two mappings with the
    same entries for these days give the same result, whatever else they
    hold. *)
Theorem graph_ignores_days_outside_window (fuel : nat) (today : Datetime.date)
    (m1 m2 : gmap pystr Z) (days : Z) :
  Datetime.ymd2ord 1000 1 1 <= Datetime.toordinal today - (days - 1) ->
  Forall (fun d => m1 !! d = m2 !! d)
         (window (Datetime.toordinal today - (days - 1)) days) ->
  generate_ascii_graph fuel today m1 days = generate_ascii_graph fuel today m2 days.
Proof.
  intros Hyear Hagree. unfold generate_ascii_graph.
  destruct (Datetime.timedelta (days - 1)) as [delta| |] eqn:Hdelta; try done.
  unfold Datetime.timedelta in Hdelta.
  destruct (_ && _) in Hdelta; simplify_eq.
  change (Returns ?d ≫= ?k) with (k d). cbv beta.
  unfold Datetime.date_sub, Datetime.date_add.
  destruct (_ && _); [|done].
  change (Returns ?d ≫= ?k) with (k d). cbv beta.
  destruct today as [e]. cbn [Datetime.toordinal] in *.
  destruct (dates_until fuel _ _ []) as [date_range| |] eqn:Hrange; try done.
  change (Returns ?d ≫= ?k) with (k d). cbv beta.
  destruct (month_labels date_range [] []) as [months| |]; try done.
  change (Returns ?d ≫= ?k) with (k d). cbv beta.
  rewrite (cells_row_ext m1 m2 date_range); [done|].
  apply Forall_forall. intros d Hd.
  destruct (dates_until_elems _ _ _ _ _ Hrange d Hd) as [Hnil|(o & Ho & ->)];
    [by apply not_elem_of_nil in Hnil|].
  rewrite Forall_forall in Hagree. apply Hagree.
  unfold window. apply list_elem_of_fmap. exists o. split; [done|].
  apply elem_of_seqZ. lia.
Qed.

Lemma graph_ignores_days_outside_window_witness :
  Datetime.ymd2ord 1000 1 1 <= Datetime.toordinal sample_today - (5 - 1)
  /\ Forall (fun d => sample_counts !! d = sample_counts_stale !! d)
         (window (Datetime.toordinal sample_today - (5 - 1)) 5)
  /\ generate_ascii_graph 6 sample_today sample_counts 5
     = generate_ascii_graph 6 sample_today sample_counts_stale 5.
Proof.
  assert (Forall (fun d => sample_counts !! d = sample_counts_stale !! d)
            (window (Datetime.toordinal sample_today - (5 - 1)) 5)) as H
    by (repeat constructor).
  assert (Datetime.ymd2ord 1000 1 1 <= Datetime.toordinal sample_today - (5 - 1))
    as Hyear by (by vm_compute).
  split; [exact Hyear|]. split; [exact H|].
  exact (graph_ignores_days_outside_window 6 sample_today sample_counts
           sample_counts_stale 5 Hyear H).
Defined.

(** X5: on a date [today], with fuel for the days asked for,
    [generate_ascii_graph] returns when the first day of the window is a
    date and, if the window has a day, today is not the last date there is;
    in every other case it raises [OverflowError], and it raises nothing
    else. *)
Theorem graph_raises_only_overflow (fuel : nat) (today : Datetime.date)
    (commits_by_date : gmap pystr Z) (days : Z) :
  0 < Datetime.toordinal today <= Datetime.MAXORDINAL ->
  Z.max 0 days < Z.of_nat fuel ->
  let start := Datetime.toordinal today - (days - 1) in
  let in_range :=
    0 < start <= Datetime.MAXORDINAL
    /\ (days <= 0 \/ Datetime.toordinal today < Datetime.MAXORDINAL) in
  (in_range ->
   exists text, generate_ascii_graph fuel today commits_by_date days = Returns text)
  /\ (~ in_range ->
      generate_ascii_graph fuel today commits_by_date days = Raises OverflowError).
Proof.
  intros Htoday Hfuel start in_range. split.
  - intros [Hstart Hlast].
    destruct (generate_ascii_graph_runs fuel today commits_by_date days)
      as (months & _ & Hrun); [subst start; lia..|].
    by eexists.
  - intros Hout. unfold generate_ascii_graph, Datetime.timedelta.
    destruct (Z.leb_spec (-999999999) (days - 1));
      destruct (Z.leb_spec (days - 1) 999999999); try done.
    cbn [andb]. change (Returns ?d ≫= ?k) with (k d). cbv beta.
    unfold Datetime.date_sub, Datetime.date_add.
    replace (Datetime.toordinal today + - (days - 1)) with start
      by (subst start; lia).
    destruct (Z.ltb_spec 0 start); destruct (Z.leb_spec start Datetime.MAXORDINAL);
      try done.
    cbn [andb]. change (Returns ?d ≫= ?k) with (k d). cbv beta.
    assert (0 < days /\ Datetime.toordinal today = Datetime.MAXORDINAL)
      as [Hdays Hmax] by (subst in_range; lia).
    destruct today as [e]. cbn [Datetime.toordinal] in *. subst e.
    by rewrite (dates_until_overflow (Z.to_nat (days - 1)) fuel start [])
      by (subst start; lia).
Qed.

Lemma graph_raises_only_overflow_witness :
  0 < Datetime.toordinal last_day <= Datetime.MAXORDINAL
  /\ Z.max 0 3 < Z.of_nat 4
  /\ let start := Datetime.toordinal last_day - (3 - 1) in
     let in_range :=
       0 < start <= Datetime.MAXORDINAL
       /\ (3 <= 0 \/ Datetime.toordinal last_day < Datetime.MAXORDINAL) in
     (in_range ->
      exists text, generate_ascii_graph 4 last_day sample_counts 3 = Returns text)
     /\ (~ in_range ->
         generate_ascii_graph 4 last_day sample_counts 3 = Raises OverflowError).
Proof.
  split; [by vm_compute|]. split; [by vm_compute|].
  apply (graph_raises_only_overflow 4 last_day sample_counts 3); by vm_compute.
Defined.

Section Labels.

Import Datetime.

Lemma zero_padded_month_inj m m' :
  1 <= m <= 12 -> 1 <= m' <= 12 ->
  zero_padded 2 m = zero_padded 2 m' -> m = m'.
Proof.
  intros Hm Hm' Heq.
  pose proof (strptime_m_zero_padded m Hm) as H1.
  pose proof (strptime_m_zero_padded m' Hm') as H2.
  rewrite Heq in H1. congruence.
Qed.

Lemma length_strftime_b m : 1 <= m <= 12 -> length (strftime_b m) = 3%nat.
Proof.
  intros Hm.
  assert (m = 1 \/ m = 2 \/ m = 3 \/ m = 4 \/ m = 5 \/ m = 6 \/ m = 7
          \/ m = 8 \/ m = 9 \/ m = 10 \/ m = 11 \/ m = 12) as Hcases by lia.
  repeat (destruct Hcases as [->|Hcases]); try subst m; reflexivity.
Qed.

Lemma month_labels_runs (ds : list date) : forall labels current_month current,
  month_text current_month current ->
  month_labels (strftime_ymd <$> ds) labels current_month
  = Returns (labels
             ++ zip (seq (length labels)
                         (length (month_runs (month <$> ds) current)))
                    (strftime_b <$> month_runs (month <$> ds) current)).
Proof.
  induction ds as [|d ds IH]; intros labels cur_text cur Htext.
  - simpl. by rewrite app_nil_r.
  - rewrite !fmap_cons. cbn [month_labels month_runs].
    unfold getitem. rewrite split_strftime_ymd.
    change (Returns ?x ≫= ?k) with (k x). cbv beta.
    pose proof (month_range (toordinal d)) as Hm. fold (month d) in Hm.
    assert (zero_padded 2 (month d) <> cur_text <-> cur <> Some (month d))
      as Hdiff.
    { destruct cur as [m|]; simpl in Htext.
      - destruct Htext as [Hm0 ->]. split; intros Hne Heq; apply Hne.
        + by simplify_eq.
        + f_equal. symmetry. by apply zero_padded_month_inj.
      - subst cur_text. split; [done|]. intros _. done. }
    destruct (decide (cur = Some (month d))) as [Hsame|Hnew].
    + rewrite decide_False by (rewrite Hdiff; by intros []).
      by apply IH.
    + rewrite decide_True by (by apply Hdiff).
      rewrite strptime_m_zero_padded by done.
      change (Returns ?x ≫= ?k) with (k x). cbv beta.
      rewrite (IH _ _ (Some (month d))) by done.
      rewrite length_app. simpl length. rewrite fmap_cons.
      replace (length labels + 1)%nat with (S (length labels)) by lia.
      simpl. by rewrite <- app_assoc.
Qed.

Lemma month_runs_range (ds : list date) : forall current,
  Forall (fun m => 1 <= m <= 12) (month_runs (month <$> ds) current).
Proof.
  induction ds as [|d ds IH]; intros cur; [constructor|].
  rewrite fmap_cons. cbn [month_runs]. case_decide; [apply IH|].
  constructor; [apply month_range | apply IH].
Qed.

Lemma length_repeat_str s n :
  length (Str.repeat_str s n) = (n * length s)%nat.
Proof.
  unfold Str.repeat_str. induction n as [|n IH]; [done|].
  simpl. rewrite length_app, IH. done.
Qed.

Lemma month_header_blocks labels : forall header,
  fold_left
    (fun header '(pos, name) =>
       header ++ Str.repeat_str (py " ") (pos * 2) ++ name)
    labels header
  = header ++ mjoin ((fun '(pos, name) =>
                        Str.repeat_str (py " ") (pos * 2) ++ name) <$> labels).
Proof.
  induction labels as [|[pos name] labels IH]; intros header; simpl.
  - by rewrite app_nil_r.
  - rewrite IH. by rewrite <- !app_assoc.
Qed.

(** The column of the [k]-th of the labels numbered from [j] on. *)
Lemma label_column (names : list pystr) : forall j k name,
  Forall (fun name => length name = 3%nat) names ->
  names !! k = Some name ->
  exists rest,
    drop (k * (2 * j) + k * k + 2 * k + 2 * (j + k))
         (mjoin ((fun '(pos, name) =>
                    Str.repeat_str (py " ") (pos * 2) ++ name)
                   <$> zip (seq j (length names)) names))
    = name ++ rest.
Proof.
  induction names as [|name0 names IH]; intros j k name Hlen Hk; [done|].
  apply Forall_cons in Hlen as [Hlen0 Hlen].
  cbn [length seq zip zip_with fmap list_fmap mjoin list_join].
  destruct k as [|k].
  - simpl in Hk. simplify_eq. eexists.
    rewrite <- app_assoc. rewrite drop_app_length'; [done|].
    rewrite length_repeat_str. simpl. lia.
  - simpl in Hk. destruct (IH (S j) k name Hlen Hk) as [rest Hrest].
    exists rest. rewrite <- Hrest.
    assert (length (Str.repeat_str (py " ") (j * 2) ++ name0) = (2 * j + 3)%nat)
      as Hblock.
    { rewrite length_app, length_repeat_str, Hlen0. simpl length. lia. }
    rewrite drop_app_ge; rewrite Hblock; [|nia].
    f_equal. nia.
Qed.

End Labels.

(** X6: the loop over the dates gives one label for each run of
    consecutive dates of one month: the name of the month, and as its
    position the number of labels before it. *)
Theorem month_labels_one_per_run (ds : list Datetime.date) :
  let runs := month_runs (Datetime.month <$> ds) None in
  month_labels (Datetime.strftime_ymd <$> ds) [] []
  = Returns (zip (seq 0 (length runs)) (Datetime.strftime_b <$> runs)).
Proof. intros runs. by rewrite (month_labels_runs ds [] [] None). Qed.

(** X7: in the header, the label of the [k]-th run of months starts at
    column 4 + k * k + 4 * k, whatever the day the month begins on. *)
Theorem month_label_starts_at (ds : list Datetime.date) (k : nat) (m : Z) :
  month_runs (Datetime.month <$> ds) None !! k = Some m ->
  exists labels,
    month_labels (Datetime.strftime_ymd <$> ds) [] [] = Returns labels
    /\ take 3 (drop (4 + k * k + 4 * k) (month_header labels))
       = Datetime.strftime_b m.
Proof.
  intros Hk. eexists. split; [by rewrite (month_labels_runs ds [] [] None)|].
  rewrite app_nil_l. unfold month_header. rewrite month_header_blocks.
  set (runs := month_runs (Datetime.month <$> ds) None) in *.
  pose proof (month_runs_range ds None) as Hrange. fold runs in Hrange.
  assert (Forall (fun name => length name = 3%nat) (Datetime.strftime_b <$> runs))
    as Hlen.
  { apply Forall_fmap. eapply Forall_impl; [exact Hrange|].
    intros x Hx. by apply length_strftime_b. }
  assert ((Datetime.strftime_b <$> runs) !! k = Some (Datetime.strftime_b m))
    as Hname by (by rewrite list_lookup_fmap, Hk).
  destruct (label_column _ 0 k _ Hlen Hname) as [rest Hrest].
  rewrite length_fmap in Hrest.
  rewrite drop_app_ge; rewrite length_repeat_str; simpl length; [|lia].
  replace (4 + k * k + 4 * k - 4 * 1)%nat
    with (k * (2 * 0) + k * k + 2 * k + 2 * (0 + k))%nat by lia.
  rewrite Hrest. rewrite take_app_length'; [done|].
  rewrite Forall_forall in Hrange. symmetry. apply length_strftime_b, Hrange.
  by eapply list_elem_of_lookup_2.
Qed.

Lemma month_label_starts_at_witness :
  month_runs (Datetime.month <$> boundary_days) None !! 1%nat = Some 2
  /\ exists labels,
       month_labels (Datetime.strftime_ymd <$> boundary_days) [] [] = Returns labels
       /\ take 3 (drop (4 + 1 * 1 + 4 * 1) (month_header labels))
          = Datetime.strftime_b 2.
Proof.
  split; [reflexivity|].
  apply (month_label_starts_at boundary_days 1 2). reflexivity.
Defined.

(** ** The end of [main] *)

(** X8: for commits that all have a date, the end of [main] does not call
    [generate_ascii_graph] when there is no commit, and returns without a
    graph whatever the number of days; with a commit it calls it, and its
    outcome is the one of the call: the graph, or the exception that the
    call raises. It returns without a graph only when there is no commit. *)
Theorem report_graph_gate (fuel : nat) (today : Datetime.date)
    (cs : list commit) (days : Z) :
  Forall has_date cs ->
  exists s,
    calculate_stats cs = Returns s
    /\ (cs = [] -> report_graph fuel today cs days = Returns None)
    /\ (cs <> [] ->
        report_graph fuel today cs days
        = (graph ← generate_ascii_graph fuel today (commits_by_date s) days;
           Returns (Some graph)))
    /\ (report_graph fuel today cs days = Returns None <-> cs = []).
Proof.
  intros Hcs.
  destruct (calculate_stats_counts cs Hcs) as (s & Hs & Hlen & _).
  exists s. split; [done|].
  assert (cs <> [] ->
          report_graph fuel today cs days
          = (graph ← generate_ascii_graph fuel today (commits_by_date s) days;
             Returns (Some graph))) as Hcall.
  { intros Hne. unfold report_graph. rewrite Hs.
    change (Returns ?x ≫= ?k) with (k x). cbv beta.
    destruct (Z.ltb_spec 0 (total_commits s)) as [|Hzero]; [done|].
    rewrite Hlen in Hzero. destruct cs; [done | simpl length in Hzero; lia]. }
  split; [by intros ->|]. split; [exact Hcall|].
  split; [|by intros ->].
  intros Hnone. destruct cs as [|c cs]; [done|].
  rewrite Hcall in Hnone by done.
  by destruct (generate_ascii_graph _ _ _ _).
Qed.

Lemma report_graph_gate_witness :
  Forall has_date sample_log
  /\ exists s,
       calculate_stats sample_log = Returns s
       /\ (sample_log = [] -> report_graph 7 last_day sample_log 3 = Returns None)
       /\ (sample_log <> [] ->
           report_graph 7 last_day sample_log 3
           = (graph ← generate_ascii_graph 7 last_day (commits_by_date s) 3;
              Returns (Some graph)))
       /\ (report_graph 7 last_day sample_log 3 = Returns None <-> sample_log = []).
Proof.
  split; [|apply (report_graph_gate 7 last_day sample_log 3)];
    repeat constructor; eexists; reflexivity.
Defined.

(** X9: the statistics and the graph together: for commits that all have a
    date, at least one, and a window that starts on 1000-01-01 or later and
    ends before the last date there is, the graph that is printed has, for
    each day of the window in turn, the cell of the number of commits
    whose date part is the text of that day. *)
Theorem report_graph_cells_count_commits (fuel : nat) (today : Datetime.date)
    (cs : list commit) (days : Z) :
  cs <> [] -> Forall has_date cs ->
  0 < days -> days <= Datetime.toordinal today ->
  Datetime.ymd2ord 1000 1 1 <= Datetime.toordinal today - (days - 1) ->
  Datetime.toordinal today < Datetime.MAXORDINAL ->
  days < Z.of_nat fuel ->
  let dates := window (Datetime.toordinal today - (days - 1)) days in
  exists header,
    report_graph fuel today cs days
    = Returns (Some (Str.join newline
        ([header;
          py "    " ++ mjoin ((fun d => [cell (count_key d cs); space]) <$> dates)]
         ++ legend))).
Proof.
  intros Hne Hcs Hdays Hfirst Hyear Hmax Hfuel dates.
  destruct (calculate_stats_counts cs Hcs) as (s & Hs & Hlen & _ & Hlook).
  destruct (generate_ascii_graph_runs fuel today (commits_by_date s) days)
    as (months & _ & Hrun); [lia..|].
  exists (month_header months). unfold report_graph. rewrite Hs.
  change (Returns ?x ≫= ?k) with (k x). cbv beta.
  assert (0 < total_commits s) as Htotal.
  { rewrite Hlen. destruct cs; [done | simpl length; lia]. }
  destruct (Z.ltb_spec 0 (total_commits s)); [|lia].
  rewrite Hrun. change (Returns ?x ≫= ?k) with (k x). cbv beta.
  rewrite cells_row_cells. unfold day_cells. fold dates.
  assert ((fun date_str => [cell (default 0 (commits_by_date s !! date_str)); space])
            <$> dates
          = (fun d => [cell (count_key d cs); space]) <$> dates) as ->; [|done].
  apply list_fmap_ext. intros i d _.
  rewrite Hlook. by case_decide as Hz; [rewrite Hz|].
Qed.

Lemma report_graph_cells_count_commits_witness :
  sample_log <> [] /\ Forall has_date sample_log
  /\ 0 < 5 /\ 5 <= Datetime.toordinal sample_today
  /\ Datetime.ymd2ord 1000 1 1 <= Datetime.toordinal sample_today - (5 - 1)
  /\ Datetime.toordinal sample_today < Datetime.MAXORDINAL
  /\ 5 < Z.of_nat 6
  /\ let dates := window (Datetime.toordinal sample_today - (5 - 1)) 5 in
     exists header,
       report_graph 6 sample_today sample_log 5
       = Returns (Some (Str.join newline
           ([header;
             py "    "
             ++ mjoin ((fun d => [cell (count_key d sample_log); space]) <$> dates)]
            ++ legend))).
Proof.
  split; [discriminate|].
  split; [repeat constructor; eexists; reflexivity|].
  repeat (split; [by vm_compute|]).
  apply (report_graph_cells_count_commits 6 sample_today sample_log 5);
    try (by vm_compute); try discriminate.
  repeat constructor; eexists; reflexivity.
Defined.

(** ** [find_git_repositories] *)

Section Walk.

Import Fs.

(** Induction on a tree, with the property for the entries of a directory. *)
Lemma node_forall_ind (P : node -> Prop) :
  P File -> P DirLink ->
  (forall entries, Forall (fun e => P e.2) entries -> P (Dir entries)) ->
  forall n, P n.
Proof.
  intros HF HL HD. fix IH 1. intros [| |entries]; [done..|].
  apply HD. induction entries as [|[name child] entries IHe]; constructor.
  - apply IH.
  - exact IHe.
Qed.

(** One step of the walk, as the loop of [os.walk] has it: the directories
    left in [dirnames] are walked in turn. *)
Lemma walk_dir dirpath entries :
  walk dirpath (Dir entries)
  = (if bool_decide (GIT ∈ dirnames entries) then [dirpath] else [])
    ++ (remove_git (dirs entries)
          ≫= fun e => walk (StrOps.path_join dirpath e.1) e.2).
Proof.
  cbn [walk]. f_equal.
  assert (forall es removed,
    (fix descend (es : list (pystr * node)) (removed : bool) : list pystr :=
       match es with
       | [] => []
       | (name, child) :: es' =>
           if is_dir child then
             if negb removed && bool_decide (name = GIT)
             then descend es' true
             else walk (StrOps.path_join dirpath name) child
                  ++ descend es' removed
           else descend es' removed
       end) es removed
    = (if removed then dirs es else remove_git (dirs es))
        ≫= fun e => walk (StrOps.path_join dirpath e.1) e.2) as Hdescend.
  { induction es as [|[name child] es IHes]; intros removed.
    - by destruct removed.
    - unfold dirs in *. rewrite filter_cons. cbn [snd].
      destruct (is_dir child) eqn:Hchild.
      + rewrite decide_True by done.
        destruct removed; cbn [negb andb remove_git].
        * rewrite IHes. by rewrite bind_cons.
        * case_bool_decide as Hname.
          -- rewrite decide_True by done. by rewrite IHes.
          -- rewrite decide_False by done. rewrite IHes. by rewrite bind_cons.
      + rewrite decide_False by done. apply IHes. }
  apply Hdescend.
Qed.

Lemma unique_names_dir entries :
  unique_names (Dir entries)
  <-> NoDup entries.*1 /\ Forall (fun e => unique_names e.2) entries.
Proof.
  cbn [unique_names].
  assert ((fix all (es : list (pystr * node)) : Prop :=
             match es with
             | [] => True
             | (_, child) :: es' => unique_names child /\ all es'
             end) entries
          <-> Forall (fun e => unique_names e.2) entries) as ->; [|done].
  induction entries as [|[name child] es IH].
  - split; [constructor | done].
  - rewrite Forall_cons, IH. done.
Qed.

Lemma remove_git_elem (l : list (pystr * node)) e :
  NoDup l.*1 -> (e ∈ remove_git l <-> e ∈ l /\ e.1 <> GIT).
Proof.
  induction l as [|[name child] l IH]; intros Hnd; simpl.
  - split; [by intros ?%not_elem_of_nil | by intros [?%not_elem_of_nil _]].
  - rewrite fmap_cons in Hnd. apply NoDup_cons in Hnd as [Hname Hnd].
    case_decide as Hgit.
    + subst name. split.
      * intros He. split; [by right|]. intros Heq. apply Hname.
        rewrite <- Heq. apply list_elem_of_fmap. by exists e.
      * intros [[->|He]%elem_of_cons Hne]; done.
    + rewrite !elem_of_cons, IH by done. split.
      * intros [->|[He Hne]]; [split; [by left | done] | split; [by right | done]].
      * intros [[->|He] Hne]; [by left | by right].
Qed.

Lemma dirs_unique entries : NoDup entries.*1 -> NoDup (dirs entries).*1.
Proof.
  unfold dirs. induction entries as [|[name child] es IH]; [done|].
  rewrite fmap_cons, NoDup_cons. intros [Hname Hnd].
  rewrite filter_cons. case_decide; [|by apply IH].
  rewrite fmap_cons. apply NoDup_cons. split; [|by apply IH].
  intros Hin. apply Hname.
  apply list_elem_of_fmap in Hin as (e & -> & He).
  apply list_elem_of_filter in He as [_ He].
  apply list_elem_of_fmap. by exists e.
Qed.

(** With names that are unique, the directories the walk goes on with are
    the directories of other names than [.git]. *)
Lemma walked_children entries name entries' :
  NoDup entries.*1 ->
  ((name, Dir entries') ∈ remove_git (dirs entries)
   <-> (name, Dir entries') ∈ entries /\ name <> GIT).
Proof.
  intros Hnd. rewrite remove_git_elem by (by apply dirs_unique).
  unfold dirs. rewrite list_elem_of_filter. simpl. tauto.
Qed.

Lemma has_git_dir entries :
  GIT ∈ dirnames entries <-> exists n, (GIT, n) ∈ entries /\ is_dir n = true.
Proof.
  unfold dirnames, dirs. rewrite list_elem_of_fmap. split.
  - intros ([name n] & Hname & [Hdir Hin]%list_elem_of_filter).
    simpl in *. subst name. by exists n.
  - intros (n & Hin & Hdir). exists (GIT, n). split; [done|].
    by apply list_elem_of_filter.
Qed.

Lemma visited_below root top name entries p es :
  (name, Dir entries) ∈ top -> name <> GIT ->
  visited (StrOps.path_join root name) entries p es ->
  visited root top p es.
Proof.
  intros Hin Hne Hv. induction Hv as [|dirpath es1 name1 es2 Hv IH Hin1 Hne1].
  - eapply visited_child; [constructor | done..].
  - by eapply visited_child.
Qed.

Lemma walk_sound n : forall dirpath p,
  unique_names n -> p ∈ walk dirpath n ->
  exists top es, n = Dir top /\ visited dirpath top p es /\ GIT ∈ dirnames es.
Proof.
  induction n as [| |entries IH] using node_forall_ind; intros dirpath p Hu Hp;
    [by apply not_elem_of_nil in Hp..|].
  exists entries. apply unique_names_dir in Hu as [Hnd Hsub].
  rewrite walk_dir in Hp. apply elem_of_app in Hp as [Hp|Hp].
  - case_bool_decide as Hgit; [|by apply not_elem_of_nil in Hp].
    apply list_elem_of_singleton in Hp. subst p.
    exists entries. repeat split; [constructor | done].
  - apply list_elem_of_bind in Hp as ([name child] & Hp & Hin). simpl in Hp.
    assert ((name, child) ∈ entries) as Hin'.
    { apply remove_git_elem in Hin as [Hin _]; [|by apply dirs_unique].
      by apply list_elem_of_filter in Hin as [_ Hin]. }
    rewrite Forall_forall in IH, Hsub.
    destruct (IH _ Hin' _ p (Hsub _ Hin') Hp) as (top & es & Htop & Hv & Hgit).
    simpl in Htop. subst child.
    apply walked_children in Hin as [_ Hne]; [|done].
    exists es. repeat split; [|done]. by eapply visited_below.
Qed.

Lemma walk_complete root top p es :
  visited root top p es -> unique_names (Dir top) ->
  unique_names (Dir es)
  /\ forall q, q ∈ walk p (Dir es) -> q ∈ walk root (Dir top).
Proof.
  induction 1 as [|dirpath es1 name es2 Hv IH Hin Hne]; intros Hu; [done|].
  destruct (IH Hu) as [Hu1 Hup].
  apply unique_names_dir in Hu1 as Hu1'. destruct Hu1' as [Hnd Hsub].
  rewrite Forall_forall in Hsub. split; [exact (Hsub _ Hin)|].
  intros q Hq. apply Hup. rewrite walk_dir. apply elem_of_app. right.
  apply list_elem_of_bind. exists (name, Dir es2). split; [done|].
  by apply walked_children.
Qed.

End Walk.

(** X10: in a tree in which the names of a directory are unique,
    [find_git_repositories] reports exactly the directories that have an
    entry [.git] that is a directory, or a link to one, and that are reached
    from the root through directories not named [.git]: a directory with a
    file [.git] is not reported, nor anything inside a directory [.git]. *)
Theorem find_git_repositories_iff (root_dir : pystr)
    (entries : list (pystr * Fs.node)) (p : pystr) :
  Fs.unique_names (Fs.Dir entries) ->
  (p ∈ Fs.find_git_repositories root_dir (Some entries)
   <-> exists es,
         Fs.visited root_dir entries p es
         /\ exists n, (Fs.GIT, n) ∈ es /\ Fs.is_dir n = true).
Proof.
  intros Hu. unfold Fs.find_git_repositories. split.
  - intros Hp.
    destruct (walk_sound _ _ _ Hu Hp) as (top & es & Htop & Hv & Hgit).
    simplify_eq. exists es. split; [done|]. by apply has_git_dir.
  - intros (es & Hv & Hgit). apply has_git_dir in Hgit.
    destruct (walk_complete _ _ _ _ Hv Hu) as [_ Hup]. apply Hup.
    rewrite walk_dir. apply elem_of_app. left.
    rewrite bool_decide_eq_true_2 by done. by left.
Qed.

Lemma find_git_repositories_iff_witness :
  Fs.unique_names (Fs.Dir sample_tree)
  /\ (py "./proj" ∈ Fs.find_git_repositories (py ".") (Some sample_tree)
      <-> exists es,
            Fs.visited (py ".") sample_tree (py "./proj") es
            /\ exists n, (Fs.GIT, n) ∈ es /\ Fs.is_dir n = true).
Proof.
  assert (Fs.unique_names (Fs.Dir sample_tree)) as Hu.
  { simpl. repeat split;
      match goal with
      | |- NoDup ?l => apply (bool_decide_unpack (NoDup l)); by vm_compute
      end. }
  split; [exact Hu|].
  exact (find_git_repositories_iff (py ".") sample_tree (py "./proj") Hu).
Defined.

(** The repositories of the sample tree: [proj] and [proj/lib], and neither
    [proj/vendor], whose [.git] is a file, nor [proj/.git/modules]. *)
Example find_git_repositories_sample :
  Fs.find_git_repositories (py ".") (Some sample_tree)
  = [py "./proj"; py "./proj/lib"].
Proof. reflexivity. Qed.

(** ** [get_git_user] and [get_commits] *)

Section Strip.

Import StrOps.

Lemma lstrip_spec s :
  (exists l, s = l ++ lstrip s /\ blank l)
  /\ (forall ch, head (lstrip s) = Some ch -> Str.isspace ch = false).
Proof.
  unfold blank. induction s as [|c s [(l & Hl & Hb) Hhead]]; simpl.
  - split; [by exists [] | done].
  - destruct (Str.isspace c) eqn:Hc.
    + split; [|done]. exists (c :: l). split; [by rewrite Hl at 1|].
      by constructor.
    + split; [by exists []|]. intros ch Hch. simpl in Hch. by simplify_eq.
Qed.

Lemma blank_reverse l : blank l -> blank (reverse l).
Proof. unfold blank. intros Hl. by apply Forall_reverse. Qed.

Lemma strip_spec s : stripped_of s (strip s).
Proof.
  unfold stripped_of, strip, rstrip.
  destruct (lstrip_spec s) as [(l & Hl & Hbl) Hhead].
  destruct (lstrip_spec (reverse (lstrip s))) as [(r & Hr & Hbr) Hlast].
  set (t := lstrip (reverse (lstrip s))) in *.
  assert (lstrip s = reverse t ++ reverse r) as Hmid.
  { rewrite <- reverse_app, <- Hr. by rewrite reverse_involutive. }
  split; [|split].
  - exists l, (reverse r). split; [by rewrite <- Hmid|].
    split; [done | by apply blank_reverse].
  - intros ch Hch. rewrite head_reverse in Hch. apply Hhead.
    rewrite <- last_reverse, Hr, last_app. by rewrite Hch.
  - intros ch Hch. rewrite last_reverse in Hch. by apply Hlast.
Qed.

End Strip.

(** X11: when both runs of [git config] succeed, [get_git_user] returns the
    two outputs without the white space at their ends: each output is the
    returned text with white space before and after it, and the returned
    text neither starts nor ends with white space. *)
Theorem get_git_user_strips (check_output : list pystr -> Proc.process_result)
    (out_name out_email : pystr) :
  check_output [py "git"; py "config"; py "user.name"] = Proc.Stdout out_name ->
  check_output [py "git"; py "config"; py "user.email"] = Proc.Stdout out_email ->
  exists name email,
    Proc.get_git_user check_output = Proc.Done (name, email)
    /\ stripped_of out_name name /\ stripped_of out_email email.
Proof.
  intros Hname Hemail. unfold Proc.get_git_user. rewrite Hname, Hemail.
  eexists _, _. split; [done|]. split; apply strip_spec.
Qed.

Lemma get_git_user_strips_witness :
  sample_git_config_set [py "git"; py "config"; py "user.name"]
    = Proc.Stdout (py "Ada Lovelace" ++ newline)
  /\ sample_git_config_set [py "git"; py "config"; py "user.email"]
    = Proc.Stdout (py "ada@example.org" ++ newline)
  /\ exists name email,
       Proc.get_git_user sample_git_config_set = Proc.Done (name, email)
       /\ stripped_of (py "Ada Lovelace" ++ newline) name
       /\ stripped_of (py "ada@example.org" ++ newline) email.
Proof.
  split; [reflexivity|]. split; [reflexivity|].
  apply (get_git_user_strips sample_git_config_set); reflexivity.
Defined.

(** X12: when a run of [git config] fails, [get_git_user] returns the pair
    of [Unknown]s: also when it is the e-mail that is not set and the name
    has been read, which is then dropped. *)
Theorem get_git_user_unknown (check_output : list pystr -> Proc.process_result)
    (out_name msg : pystr) :
  check_output [py "git"; py "config"; py "user.name"] = Proc.Stdout out_name ->
  check_output [py "git"; py "config"; py "user.email"]
    = Proc.CalledProcessError msg ->
  Proc.get_git_user check_output = Proc.Done (py "Unknown", py "Unknown").
Proof.
  intros Hname Hemail. unfold Proc.get_git_user. by rewrite Hname, Hemail.
Qed.

Lemma get_git_user_unknown_witness :
  sample_git_config [py "git"; py "config"; py "user.name"]
    = Proc.Stdout (py "Ada Lovelace" ++ newline)
  /\ sample_git_config [py "git"; py "config"; py "user.email"]
    = Proc.CalledProcessError (py "exit status 1")
  /\ Proc.get_git_user sample_git_config = Proc.Done (py "Unknown", py "Unknown").
Proof.
  split; [reflexivity|]. split; [reflexivity|].
  apply (get_git_user_unknown sample_git_config (py "Ada Lovelace" ++ newline)
           (py "exit status 1")); reflexivity.
Defined.

Section Commits.

Import Proc.

Context {J : Type}.
Variable json_loads : pystr -> pystr + J.

Lemma parse_output_lines output :
  parse_output json_loads output = parse_lines json_loads (output_lines output) [].
Proof. by destruct output. Qed.

(** A line that is not JSON ends the loop with its error, whatever has
    been read before it. *)
Lemma parse_lines_bad lines : forall commits,
  Exists (fun line => line <> [] /\ exists msg, json_loads line = inl msg) lines ->
  exists msg, parse_lines json_loads lines commits = inl msg.
Proof.
  induction lines as [|line lines IH]; intros commits Hbad;
    [by apply Exists_nil in Hbad|].
  apply Exists_cons in Hbad. simpl.
  destruct line as [|ch line].
  - destruct Hbad as [[? _]|Hbad]; [done | by apply IH].
  - destruct (json_loads (ch :: line)) as [msg|commit] eqn:Hline; [by exists msg|].
    destruct Hbad as [[_ [msg Hmsg]]|Hbad]; [congruence | by apply IH].
Qed.

(** When every line is empty or JSON, the loop reads the lines that are
    not empty, in their order. *)
Lemma parse_lines_ok lines : forall commits,
  Forall (fun line => line = [] \/ exists c, json_loads line = inr c) lines ->
  exists read,
    parse_lines json_loads lines commits = inr (commits ++ read)
    /\ Forall2 (fun line c => json_loads line = inr c)
               (filter (fun line => line <> []) lines) read.
Proof.
  induction lines as [|line lines IH]; intros commits Hok.
  - exists []. split; [by rewrite app_nil_r | constructor].
  - apply Forall_cons in Hok as [Hline Hok]. simpl.
    destruct line as [|ch line].
    + rewrite filter_cons_False by (by intros ?). by apply IH.
    + destruct Hline as [?|[c Hc]]; [done|]. rewrite Hc.
      destruct (IH (commits ++ [c]) Hok) as (read & Hread & Hall).
      exists (c :: read). split; [by rewrite Hread, <- app_assoc|].
      rewrite filter_cons_True by done. by constructor.
Qed.

End Commits.

(** X13: whenever [get_commits] returns a list, the process is back in the
    directory it was in, a change to that directory leading there: after
    the commits have been read, after a failure of [git log] and after a
    line that is not JSON alike. *)
Theorem get_commits_restores_cwd {J : Type} (json_loads : pystr -> pystr + J)
    (check_output : pystr -> list pystr -> Proc.process_result)
    (chdir : pystr -> pystr -> option pystr)
    (now : Datetime.date) (repo_path : pystr) (days : Z) (author_email : pystr)
    (w w' : Proc.world) (commits : list J) :
  (forall from dir, chdir from (Proc.cwd w) = Some dir -> dir = Proc.cwd w) ->
  Proc.get_commits json_loads check_output chdir now repo_path days author_email w
    = (Proc.Done commits, w') ->
  Proc.cwd w' = Proc.cwd w.
Proof.
  intros Hback. unfold Proc.get_commits, Proc.on_error.
  destruct (Proc.since_date now days); [|done..].
  destruct (chdir (Proc.cwd w) repo_path) as [repo_dir|]; [|done].
  cbn [Proc.cwd Proc.set_cwd Proc.print].
  destruct (check_output repo_dir _) as [output|msg|]; [| |done].
  - destruct (chdir repo_dir (Proc.cwd w)) as [dir|] eqn:Hdir; [|done].
    apply Hback in Hdir as ->.
    destruct (Proc.parse_output json_loads output) as [msg|read].
    + cbn [Proc.cwd Proc.set_cwd Proc.print].
      destruct (chdir (Proc.cwd w) (Proc.cwd w)) as [dir|] eqn:Hdir; [|done].
      apply Hback in Hdir as ->. intros [= _ <-]. done.
    + intros [= _ <-]. done.
  - destruct (chdir repo_dir (Proc.cwd w)) as [dir|] eqn:Hdir; [|done].
    apply Hback in Hdir as ->. intros [= _ <-]. done.
Qed.

Lemma get_commits_restores_cwd_witness :
  (forall from dir, sample_chdir from (Proc.cwd sample_world) = Some dir ->
                    dir = Proc.cwd sample_world)
  /\ Proc.get_commits sample_json_loads sample_git_log_bad sample_chdir
       sample_today (py "./proj") 5 (py "ada@example.org") sample_world
     = (Proc.Done [],
        sample_world_error)
  /\ Proc.cwd sample_world_error
     = Proc.cwd sample_world.
Proof.
  assert (forall from dir, sample_chdir from (Proc.cwd sample_world) = Some dir ->
                           dir = Proc.cwd sample_world) as Hback
    by (intros from dir [= <-]; reflexivity).
  split; [exact Hback|]. split; [reflexivity|].
  apply (get_commits_restores_cwd sample_json_loads sample_git_log_bad sample_chdir
           sample_today (py "./proj") 5 (py "ada@example.org") sample_world
           sample_world_error []);
    [exact Hback | reflexivity].
Defined.

(** X14: one line of the output of [git log] that is not JSON costs the
    repository all its commits: [get_commits] then returns no commit at
    all, those of the lines before it included, and prints the error. *)
Theorem get_commits_all_or_nothing {J : Type} (json_loads : pystr -> pystr + J)
    (check_output : pystr -> list pystr -> Proc.process_result)
    (chdir : pystr -> pystr -> option pystr)
    (now : Datetime.date) (repo_path : pystr) (days : Z) (author_email : pystr)
    (w w' : Proc.world) (output : pystr) (commits : list J) :
  (forall dir cmd, check_output dir cmd = Proc.Stdout output) ->
  Exists (fun line => line <> [] /\ exists msg, json_loads line = inl msg)
         (output_lines output) ->
  Proc.get_commits json_loads check_output chdir now repo_path days author_email w
    = (Proc.Done commits, w') ->
  commits = []
  /\ exists msg,
       Proc.printed w'
       = Proc.printed w
         ++ [py "Error getting commits for " ++ repo_path ++ py ": " ++ msg].
Proof.
  intros Hout Hbad. unfold Proc.get_commits, Proc.on_error.
  destruct (Proc.since_date now days); [|done..].
  destruct (chdir (Proc.cwd w) repo_path) as [repo_dir|]; [|done].
  cbn [Proc.cwd Proc.set_cwd Proc.print]. rewrite Hout.
  destruct (chdir repo_dir (Proc.cwd w)) as [dir|]; [|done].
  rewrite parse_output_lines.
  destruct (parse_lines_bad json_loads _ [] Hbad) as [msg ->].
  cbn [Proc.cwd Proc.set_cwd Proc.print Proc.printed].
  destruct (chdir dir (Proc.cwd w)); [|done].
  intros [= <- <-]. split; [done|]. by exists msg.
Qed.

Lemma get_commits_all_or_nothing_witness :
  (forall dir cmd,
     sample_git_log_bad dir cmd
     = Proc.Stdout sample_output_bad)
  /\ Exists (fun line => line <> [] /\ exists msg, sample_json_loads line = inl msg)
            (output_lines
               sample_output_bad)
  /\ Proc.get_commits sample_json_loads sample_git_log_bad sample_chdir
       sample_today (py "./proj") 5 (py "ada@example.org") sample_world
     = (Proc.Done [],
        sample_world_error)
  /\ @nil pystr = []
  /\ exists msg,
       Proc.printed
         sample_world_error
       = Proc.printed sample_world
         ++ [py "Error getting commits for " ++ py "./proj" ++ py ": " ++ msg].
Proof.
  assert (Exists (fun line => line <> [] /\ exists msg, sample_json_loads line = inl msg)
            (output_lines
               sample_output_bad))
    as Hbad.
  { apply Exists_cons_tl, Exists_cons_hd. split; [discriminate|].
    by exists (py "Expecting value"). }
  split; [reflexivity|]. split; [exact Hbad|]. split; [reflexivity|].
  apply (get_commits_all_or_nothing sample_json_loads sample_git_log_bad
           sample_chdir sample_today (py "./proj") 5 (py "ada@example.org")
           sample_world sample_world_error sample_output_bad []);
    [reflexivity | exact Hbad | reflexivity].
Defined.

(** X15: when [git log] succeeds, the process can go back to its directory
    and every line of the output is empty or JSON, [get_commits] returns
    what the lines that are not empty are read as, in their order, and
    leaves the directory and the printed lines as they were. *)
Theorem get_commits_reads_every_line {J : Type} (json_loads : pystr -> pystr + J)
    (check_output : pystr -> list pystr -> Proc.process_result)
    (chdir : pystr -> pystr -> option pystr)
    (now : Datetime.date) (repo_path : pystr) (days : Z) (author_email : pystr)
    (w : Proc.world) (since repo_dir output : pystr) :
  Proc.since_date now days = Returns since ->
  chdir (Proc.cwd w) repo_path = Some repo_dir ->
  check_output repo_dir (Proc.git_log_cmd since author_email) = Proc.Stdout output ->
  chdir repo_dir (Proc.cwd w) = Some (Proc.cwd w) ->
  Forall (fun line => line = [] \/ exists c, json_loads line = inr c)
         (output_lines output) ->
  exists commits,
    Proc.get_commits json_loads check_output chdir now repo_path days author_email w
    = (Proc.Done commits, w)
    /\ Forall2 (fun line c => json_loads line = inr c)
               (filter (fun line => line <> []) (output_lines output)) commits.
Proof.
  intros Hsince Hrepo Hout Hback Hok. unfold Proc.get_commits.
  rewrite Hsince, Hrepo. cbn [Proc.cwd Proc.set_cwd]. rewrite Hout, Hback.
  rewrite parse_output_lines.
  destruct (parse_lines_ok json_loads _ [] Hok) as (read & -> & Hread).
  exists read. split; [|done]. by destruct w.
Qed.

Lemma get_commits_reads_every_line_witness :
  Proc.since_date sample_today 5 = Returns (py "2023-12-31")
  /\ sample_chdir (Proc.cwd sample_world) (py "./proj") = Some (py "./proj")
  /\ sample_git_log (py "./proj")
       (Proc.git_log_cmd (py "2023-12-31") (py "ada@example.org"))
     = Proc.Stdout sample_output
  /\ sample_chdir (py "./proj") (Proc.cwd sample_world)
     = Some (Proc.cwd sample_world)
  /\ Forall (fun line => line = [] \/ exists c, sample_json_loads line = inr c)
            (output_lines sample_output)
  /\ exists commits,
       Proc.get_commits sample_json_loads sample_git_log sample_chdir
         sample_today (py "./proj") 5 (py "ada@example.org") sample_world
       = (Proc.Done commits, sample_world)
       /\ Forall2 (fun line c => sample_json_loads line = inr c)
            (filter (fun line => line <> [])
               (output_lines sample_output))
            commits.
Proof.
  assert (Forall (fun line => line = [] \/ exists c, sample_json_loads line = inr c)
            (output_lines sample_output))
    as Hok.
  { change (output_lines sample_output) with [py "{a}"; []; py "{b}"].
    apply Forall_cons_2; [right; by eexists|].
    apply Forall_cons_2; [by left|].
    apply Forall_cons_2; [right; by eexists|].
    constructor. }
  repeat (split; [reflexivity|]). split; [exact Hok|].
  apply (get_commits_reads_every_line sample_json_loads sample_git_log sample_chdir
           sample_today (py "./proj") 5 (py "ada@example.org") sample_world
           (py "2023-12-31") (py "./proj")
           sample_output);
    [reflexivity.. | exact Hok].
Defined.



(** X17: [get_commits] ends with the [OverflowError] of the date
    arithmetic, before the directory is changed or anything is printed,
    exactly when the day [days] days before today is not a date: the number
    of days has to be smaller than the ordinal of today, one less than for
    the graph. *)
Theorem get_commits_overflow_iff {J : Type} (json_loads : pystr -> pystr + J)
    (check_output : pystr -> list pystr -> Proc.process_result)
    (chdir : pystr -> pystr -> option pystr)
    (now : Datetime.date) (repo_path : pystr) (days : Z) (author_email : pystr)
    (w : Proc.world) :
  0 < Datetime.toordinal now <= Datetime.MAXORDINAL ->
  (Proc.get_commits json_loads check_output chdir now repo_path days author_email w
   = (Proc.Propagates Proc.DateOverflow, w)
   <-> ~ (0 < Datetime.toordinal now - days <= Datetime.MAXORDINAL)).
Proof.
  intros Hnow. unfold Proc.get_commits, Proc.since_date, Datetime.timedelta.
  unfold Datetime.date_sub, Datetime.date_add, Proc.on_error.
  destruct (Z.leb_spec (-999999999) days); destruct (Z.leb_spec days 999999999);
    cbn [andb]; try (unfold Datetime.MAXORDINAL in *; split; [lia | done]).
  change (Returns ?x ≫= ?k) with (k x). cbv beta.
  replace (Datetime.toordinal now + - days) with (Datetime.toordinal now - days)
    by lia.
  destruct (Z.ltb_spec 0 (Datetime.toordinal now - days));
    destruct (Z.leb_spec (Datetime.toordinal now - days) Datetime.MAXORDINAL);
    cbn [andb]; try (split; [lia | done]).
  change (Returns ?x ≫= ?k) with (k x). cbv beta.
  split; [|lia]. intros Hrun. exfalso.
  destruct (chdir (Proc.cwd w) repo_path); [|done].
  destruct (check_output _ _); [| |done].
  - destruct (chdir _ _); [|done].
    destruct (Proc.parse_output _ _); [|done].
    by destruct (chdir _ _).
  - by destruct (chdir _ _).
Qed.

Lemma get_commits_overflow_iff_witness :
  0 < Datetime.toordinal sample_today <= Datetime.MAXORDINAL
  /\ (Proc.get_commits sample_json_loads sample_git_log sample_chdir sample_today
        (py "./proj") (Datetime.toordinal sample_today) (py "ada@example.org")
        sample_world
      = (Proc.Propagates Proc.DateOverflow, sample_world)
      <-> ~ (0 < Datetime.toordinal sample_today - Datetime.toordinal sample_today
             <= Datetime.MAXORDINAL)).
Proof.
  split; [by vm_compute|].
  apply (get_commits_overflow_iff sample_json_loads sample_git_log sample_chdir
           sample_today (py "./proj") (Datetime.toordinal sample_today)
           (py "ada@example.org") sample_world).
  by vm_compute.
Defined.
